(** * mcp-workflow-deploy.py: a shallow embedding and its properties

    The script is a straight-line module body: it prints a banner, binds a
    literal workflow description to [workflow_data], runs one [docker exec]
    through [subprocess.run] inside a [try] statement with two [except]
    clauses, and prints a closing checklist.

    Modelling choices.
    - A Python [str] is a [string] holding its UTF-8 encoding, so the
      literals below are the literals of the script.  UTF-8 is
      self-synchronising, hence the byte-level substring test [str_in]
      agrees with Python's [in] on code points.
    - [print(x)] appends one entry to [sys_stdout]; the text on the console
      is [console_text], every entry followed by a newline.
    - The module namespace is the record [world]; reading a name that is
      not bound raises [NameError], as in Python.
    - Statements are computations in [M], a state-and-exception monad.
    - [subprocess.run] is the one call into the environment; it is a
      variable of the section that holds the script.
    - [Json] holds a model of the JSON writer and reader of Python's
      standard library, for the round trip of the payload. *)

From Stdlib Require Import String Ascii List ZArith NArith Bool Lia.
From Stdlib Require Import DecimalString DecimalFacts DecimalPos DecimalN DecimalZ.
Import ListNotations.
Open Scope string_scope.

(** ** Strings *)

(** [needle in hay] on Python strings. *)
Fixpoint str_in (needle hay : string) : bool :=
  String.prefix needle hay ||
  match hay with
  | EmptyString => false
  | String _ rest => str_in needle rest
  end.

(** Truth value of a string: [if s:] holds exactly for non-empty [s]. *)
Definition str_truthy (s : string) : bool :=
  match s with
  | EmptyString => false
  | String _ _ => true
  end.

(** The character [\n]. *)
Definition nl : ascii := "010"%char.

(** ** Python values built by literals *)

Set Warnings "-register-all".

Inductive value : Type :=
| PyNone
| PyBool (b : bool)
| Str (s : string)
| Int (z : Z)
| PyList (items : list value)
| Dict (entries : list (string * value)).

(** [d[k]] for a dictionary with string keys, [None] for [KeyError] or
    when [d] is not a dictionary. *)
Fixpoint assoc (k : string) (entries : list (string * value)) : option value :=
  match entries with
  | [] => None
  | (k', v) :: rest => if String.eqb k k' then Some v else assoc k rest
  end.

Definition getitem (d : value) (k : string) : option value :=
  match d with
  | Dict entries => assoc k entries
  | _ => None
  end.

(** ** Exceptions *)

(** The fragment of Python's exception hierarchy that the [try] statement
    of the script can meet. *)
Inductive pyclass : Type :=
| BaseException
| KeyboardInterrupt
| SystemExit
| Exception
| NameError
| OSError
| FileNotFoundError
| PermissionError
| ValueError
| UnicodeError
| UnicodeDecodeError
| SubprocessError
| TimeoutExpired.

Definition pyclass_eqb (c d : pyclass) : bool :=
  match c, d with
  | BaseException, BaseException
  | KeyboardInterrupt, KeyboardInterrupt
  | SystemExit, SystemExit
  | Exception, Exception
  | NameError, NameError
  | OSError, OSError
  | FileNotFoundError, FileNotFoundError
  | PermissionError, PermissionError
  | ValueError, ValueError
  | UnicodeError, UnicodeError
  | UnicodeDecodeError, UnicodeDecodeError
  | SubprocessError, SubprocessError
  | TimeoutExpired, TimeoutExpired => true
  | _, _ => false
  end.

(** The direct base class. *)
Definition base (c : pyclass) : option pyclass :=
  match c with
  | BaseException => None
  | KeyboardInterrupt | SystemExit | Exception => Some BaseException
  | NameError | OSError | ValueError | SubprocessError => Some Exception
  | FileNotFoundError | PermissionError => Some OSError
  | UnicodeError => Some ValueError
  | UnicodeDecodeError => Some UnicodeError
  | TimeoutExpired => Some SubprocessError
  end.

Fixpoint issubclass_upto (depth : nat) (c d : pyclass) : bool :=
  pyclass_eqb c d ||
  match depth, base c with
  | S depth', Some b => issubclass_upto depth' b d
  | _, _ => false
  end.

(** No chain of bases above is longer than four. *)
Definition issubclass : pyclass -> pyclass -> bool := issubclass_upto 4.

(** A raised exception: its class and [str(e)]. *)
Record exn : Type := mkExn { exn_class : pyclass; exn_str : string }.

Definition isinstance (e : exn) (c : pyclass) : bool :=
  issubclass (exn_class e) c.

(** ** The module namespace and the console *)

(** What [subprocess.run(..., capture_output=True, text=True)] returns. *)
Record CompletedProcess : Type := mkCompleted {
  args : list string;
  returncode : Z;
  stdout : string;
  stderr : string
}.

Record world : Type := mkWorld {
  g_workflow_data : option value;
  g_cmd : option (list string);
  g_result : option CompletedProcess;
  sys_stdout : list string
}.

(** The state in which the interpreter starts the module body. *)
Definition initial_world : world := mkWorld None None None [].

(** The text written to the console: every [print] ends its line. *)
Definition text_of (entries : list string) : string :=
  fold_right (fun s rest => s ++ String nl rest) EmptyString entries.

Definition console_text (w : world) : string := text_of (sys_stdout w).

(** What a statement appends to the console when it runs from [w]. *)
Definition written_by {A} (m : world -> (exn + A) * world) (w : world)
  : list string :=
  skipn (length (sys_stdout w)) (sys_stdout (snd (m w))).

(** ** Statements *)

Definition M (A : Type) : Type := world -> (exn + A) * world.

Definition ret {A} (a : A) : M A := fun w => (inr a, w).

Definition bind {A B} (m : M A) (k : A -> M B) : M B :=
  fun w =>
    match m w with
    | (inl e, w') => (inl e, w')
    | (inr a, w') => k a w'
    end.

Definition raise {A} (e : exn) : M A := fun w => (inl e, w).

Declare Scope py_scope.
Delimit Scope py_scope with py.
Notation "x <- c ;; k" := (bind c (fun x => k))
  (at level 100, c at next level, right associativity) : py_scope.
Notation "c ;; k" := (bind c (fun _ => k))
  (at level 100, right associativity) : py_scope.
Open Scope py_scope.

Definition print (s : string) : M unit :=
  fun w => (inr tt,
            mkWorld (g_workflow_data w) (g_cmd w) (g_result w)
                    (sys_stdout w ++ [s])).

Definition name_error (name : string) : exn :=
  mkExn NameError ("name '" ++ name ++ "' is not defined").

Definition set_workflow_data (v : value) : M unit :=
  fun w => (inr tt, mkWorld (Some v) (g_cmd w) (g_result w) (sys_stdout w)).

Definition set_cmd (c : list string) : M unit :=
  fun w => (inr tt,
            mkWorld (g_workflow_data w) (Some c) (g_result w) (sys_stdout w)).

Definition set_result (r : CompletedProcess) : M unit :=
  fun w => (inr tt,
            mkWorld (g_workflow_data w) (g_cmd w) (Some r) (sys_stdout w)).

Definition get_cmd : M (list string) :=
  fun w =>
    match g_cmd w with
    | Some c => (inr c, w)
    | None => (inl (name_error "cmd"), w)
    end.

Definition get_result : M CompletedProcess :=
  fun w =>
    match g_result w with
    | Some r => (inr r, w)
    | None => (inl (name_error "result"), w)
    end.

(** An [except C as e: h] clause. *)
Definition handler : Type := pyclass * (exn -> M unit).

(** The clauses are tried in order; an exception no clause matches goes on
    propagating. *)
Fixpoint dispatch (handlers : list handler) (e : exn) : M unit :=
  match handlers with
  | [] => raise e
  | (c, h) :: rest => if isinstance e c then h e else dispatch rest e
  end.

Definition try_except (body : M unit) (handlers : list handler) : M unit :=
  fun w =>
    match body w with
    | (inl e, w') => dispatch handlers e w'
    | (inr tt, w') => (inr tt, w')
    end.

(** How the interpreter process ends. *)
Inductive process_end : Type :=
| Exits (code : Z)
| ExitsWithCodeOf (e : exn)
| KilledBySigint.

(** The exit status of the interpreter (CPython 3.8 and later, on POSIX).
    A module body that runs to its end gives status 0.  An uncaught
    [SystemExit] makes the interpreter exit with the code that the instance
    carries (0 for [SystemExit()]), which [exn] does not record.  An
    uncaught [KeyboardInterrupt] makes it restore the default handler and
    kill itself with SIGINT (a shell reports 130).  Any other uncaught
    exception prints a traceback and gives status 1. *)
Definition exit_status (r : exn + unit) : process_end :=
  match r with
  | inr _ => Exits 0
  | inl e =>
      if isinstance e SystemExit then ExitsWithCodeOf e
      else if isinstance e KeyboardInterrupt then KilledBySigint
      else Exits 1
  end.

(** ** JSON text of a value

    The script imports [json] at line 2 and never calls it; the round trip
    of the payload is a property the specification states for the case that
    it is ever exercised.  [dumps] and [loads] below stand for Python's
    [json.dumps] and [json.loads] with their default arguments.  Characters
    outside ASCII (written [\uXXXX] by Python) and floating-point numbers
    are outside the fragment: [dumps] and [loads] give [None] there, as
    [loads] does where Python raises. *)

Module Json.

Definition dquote : ascii := "034"%char.
Definition backslash : ascii := "\"%char.

Definition code (c : ascii) : N := N_of_ascii c.

(** One lower-case hexadecimal digit. *)
Definition hex_digit (n : N) : ascii :=
  if (n <? 10)%N then ascii_of_N (48 + n) else ascii_of_N (87 + n).

Definition hex_value (c : ascii) : option N :=
  let n := code c in
  if (48 <=? n)%N && (n <=? 57)%N then Some (n - 48)%N
  else if (97 <=? n)%N && (n <=? 102)%N then Some (n - 87)%N
  else if (65 <=? n)%N && (n <=? 70)%N then Some (n - 55)%N
  else None.

(** How [ensure_ascii] encoding writes one character of a string. *)
Definition escape_char (c : ascii) : option string :=
  let n := code c in
  if Ascii.eqb c dquote then Some (String backslash (String dquote EmptyString))
  else if Ascii.eqb c backslash then Some "\\"
  else if (n =? 10)%N then Some "\n"
  else if (n =? 13)%N then Some "\r"
  else if (n =? 9)%N then Some "\t"
  else if (n =? 8)%N then Some "\b"
  else if (n =? 12)%N then Some "\f"
  else if (n <? 32)%N || (n =? 127)%N then
    Some ("\u00" ++ String (hex_digit (n / 16)) (String (hex_digit (n mod 16)) EmptyString))
  else if (n <? 127)%N then Some (String c EmptyString)
  else None.

Fixpoint escape (s : string) : option string :=
  match s with
  | EmptyString => Some EmptyString
  | String c rest =>
      match escape_char c, escape rest with
      | Some a, Some b => Some (a ++ b)
      | _, _ => None
      end
  end.

Definition quoted (s : string) : option string :=
  option_map (fun body => String dquote (body ++ String dquote EmptyString))
             (escape s).

Definition repr_int (z : Z) : string := NilZero.string_of_int (Z.to_int z).

Fixpoint sequence {A} (l : list (option A)) : option (list A) :=
  match l with
  | [] => Some []
  | Some a :: rest => option_map (cons a) (sequence rest)
  | None :: _ => None
  end.

(** One [key: value] entry, given how values are written. *)
Definition dump_entry (dump : value -> option string) (kv : string * value)
  : option string :=
  let (k, x) := kv in
  match quoted k, dump x with
  | Some k', Some x' => Some (k' ++ ": " ++ x')
  | _, _ => None
  end.

(** Modelled from the spec: the serialize step of the round trip of
    section 8, [json.dumps] of the standard library, which is not part of
    the repository: separators [", "] and [": "], [ensure_ascii] escaping
    of strings, integers in decimal. *)
Fixpoint dumps (v : value) : option string :=
  match v with
  | PyNone => Some "null"
  | PyBool true => Some "true"
  | PyBool false => Some "false"
  | Str s => quoted s
  | Int z => Some (repr_int z)
  | PyList items =>
      option_map (fun parts => "[" ++ String.concat ", " parts ++ "]")
                 (sequence (map dumps items))
  | Dict entries =>
      option_map (fun parts => "{" ++ String.concat ", " parts ++ "}")
                 (sequence (map (dump_entry dumps) entries))
  end.

Definition is_ws (c : ascii) : bool :=
  let n := code c in
  (n =? 32)%N || (n =? 9)%N || (n =? 10)%N || (n =? 13)%N.

Fixpoint skip_ws (s : string) : string :=
  match s with
  | String c rest => if is_ws c then skip_ws rest else s
  | EmptyString => s
  end.

Definition unescape (c : ascii) : option ascii :=
  if Ascii.eqb c dquote then Some dquote
  else match c with
       | "\"%char => Some backslash
       | "/"%char => Some "/"%char
       | "b"%char => Some "008"%char
       | "f"%char => Some "012"%char
       | "n"%char => Some "010"%char
       | "r"%char => Some "013"%char
       | "t"%char => Some "009"%char
       | _ => None
       end.

Definition hex4 (a b c d : ascii) : option N :=
  match hex_value a, hex_value b, hex_value c, hex_value d with
  | Some x, Some y, Some z, Some w => Some (((x * 16 + y) * 16 + z) * 16 + w)%N
  | _, _, _, _ => None
  end.

Definition push (c : ascii) (r : option (string * string))
  : option (string * string) :=
  match r with
  | Some (s, rest) => Some (String c s, rest)
  | None => None
  end.

(** The characters of a string literal after its opening quote. *)
Fixpoint scan_string (s : string) : option (string * string) :=
  match s with
  | EmptyString => None
  | String c rest =>
      if Ascii.eqb c dquote then Some (EmptyString, rest)
      else if Ascii.eqb c backslash then
        match rest with
        | String "u" (String h1 (String h2 (String h3 (String h4 rest')))) =>
            match hex4 h1 h2 h3 h4 with
            | Some n => if (n <? 128)%N then push (ascii_of_N n) (scan_string rest')
                        else None
            | None => None
            end
        | String e rest' =>
            match unescape e with
            | Some c' => push c' (scan_string rest')
            | None => None
            end
        | EmptyString => None
        end
      else if (code c <? 32)%N then None
      else push c (scan_string rest)
  end.

Definition is_digit (c : ascii) : bool :=
  (48 <=? code c)%N && (code c <=? 57)%N.

(** The longest run of digits at the head of [s], and what follows it. *)
Fixpoint span_digits (s : string) : string * string :=
  match s with
  | String c rest =>
      if is_digit c then
        let (digits, rest') := span_digits rest in (String c digits, rest')
      else (EmptyString, s)
  | EmptyString => (EmptyString, EmptyString)
  end.

(** What follows an integer literal must not turn it into a float. *)
Definition starts_fraction (s : string) : bool :=
  match s with
  | String "."%char (String d _) => is_digit d
  | String "e"%char _ | String "E"%char _ => true
  | _ => false
  end.

(** An integer literal: an optional sign, then a lone zero or digits that
    start with a non-zero one. *)
Definition scan_sign (s : string) : bool * string :=
  match s with
  | String "-"%char rest => (true, rest)
  | _ => (false, s)
  end.

Definition scan_magnitude (s : string) : option (Z * string) :=
  match s with
  | String "0"%char rest => Some (0%Z, rest)
  | String c _ =>
      if is_digit c then
        let (digits, rest) := span_digits s in
        option_map (fun u => (Z.of_uint u, rest))
                   (NilZero.uint_of_string digits)
      else None
  | EmptyString => None
  end.

Definition scan_number (s : string) : option (Z * string) :=
  let (negative, s1) := scan_sign s in
  match scan_magnitude s1 with
  | Some (n, rest) =>
      if starts_fraction rest then None
      else Some (if negative then (- n)%Z else n, rest)
  | None => None
  end.

(** [d[k] = v] on a dictionary kept in insertion order. *)
Fixpoint setitem (k : string) (v : value) (entries : list (string * value))
  : list (string * value) :=
  match entries with
  | [] => [(k, v)]
  | (k', v') :: rest =>
      if String.eqb k k' then (k', v) :: rest else (k', v') :: setitem k v rest
  end.

Fixpoint parse_value (fuel : nat) (s : string) : option (value * string) :=
  match fuel with
  | O => None
  | S fuel' =>
      match skip_ws s with
      | String "{"%char rest =>
          match skip_ws rest with
          | String "}"%char rest' => Some (Dict [], rest')
          | _ => parse_members fuel' [] rest
          end
      | String "["%char rest =>
          match skip_ws rest with
          | String "]"%char rest' => Some (PyList [], rest')
          | _ => parse_elements fuel' [] rest
          end
      | String "n"%char (String "u"%char (String "l"%char (String "l"%char rest))) =>
          Some (PyNone, rest)
      | String "t"%char (String "r"%char (String "u"%char (String "e"%char rest))) =>
          Some (PyBool true, rest)
      | String "f"%char (String "a"%char (String "l"%char (String "s"%char (String "e"%char rest)))) =>
          Some (PyBool false, rest)
      | String c rest =>
          if Ascii.eqb c dquote then
            match scan_string rest with
            | Some (str, rest') => Some (Str str, rest')
            | None => None
            end
          else
            match scan_number (String c rest) with
            | Some (n, rest') => Some (Int n, rest')
            | None => None
            end
      | EmptyString => None
      end
  end
with parse_elements (fuel : nat) (acc : list value) (s : string)
  : option (value * string) :=
  match fuel with
  | O => None
  | S fuel' =>
      match parse_value fuel' s with
      | Some (v, rest) =>
          match skip_ws rest with
          | String ","%char rest' => parse_elements fuel' (acc ++ [v]) rest'
          | String "]"%char rest' => Some (PyList (acc ++ [v]), rest')
          | _ => None
          end
      | None => None
      end
  end
with parse_members (fuel : nat) (acc : list (string * value)) (s : string)
  : option (value * string) :=
  match fuel with
  | O => None
  | S fuel' =>
      match skip_ws s with
      | String c rest =>
          if Ascii.eqb c dquote then
            match scan_string rest with
            | Some (k, rest1) =>
                match skip_ws rest1 with
                | String ":"%char rest2 =>
                    match parse_value fuel' rest2 with
                    | Some (v, rest3) =>
                        match skip_ws rest3 with
                        | String ","%char rest4 =>
                            parse_members fuel' (setitem k v acc) rest4
                        | String "}"%char rest4 =>
                            Some (Dict (setitem k v acc), rest4)
                        | _ => None
                        end
                    | None => None
                    end
                | _ => None
                end
            | None => None
            end
          else None
      | EmptyString => None
      end
  end.

(** Modelled from the spec: the parse step of the round trip of section 8,
    [json.loads] of the standard library, which is not part of the
    repository: one value between optional white space, strict string
    literals, a repeated key keeping its first place and its last value. *)
Definition loads (s : string) : option value :=
  match parse_value (S (String.length s)) s with
  | Some (v, rest) =>
      match skip_ws rest with
      | EmptyString => Some v
      | String _ _ => None
      end
  | None => None
  end.

(** The fragment on which the round trip is stated: every string, keys
    included, is ASCII, and no dictionary repeats a key. *)
Fixpoint is_ascii (s : string) : bool :=
  match s with
  | EmptyString => true
  | String c rest => (code c <? 128)%N && is_ascii rest
  end.

Fixpoint distinct (keys : list string) : bool :=
  match keys with
  | [] => true
  | k :: rest => negb (existsb (String.eqb k) rest) && distinct rest
  end.

Fixpoint representable (v : value) : bool :=
  match v with
  | PyNone | PyBool _ | Int _ => true
  | Str s => is_ascii s
  | PyList items => forallb representable items
  | Dict entries =>
      distinct (map fst entries)
      && forallb (fun kv : string * value =>
                    is_ascii (fst kv) && representable (snd kv)) entries
  end.

(** What may follow the text of a value: nothing that extends a number. *)
Definition number_ends (rest : string) : bool :=
  match rest with
  | EmptyString => true
  | String c _ =>
      negb (is_digit c) && negb (Ascii.eqb c "."%char)
      && negb (Ascii.eqb c "e"%char) && negb (Ascii.eqb c "E"%char)
  end.

(** How the text of a value starts: not with white space and not with a
    closing bracket. *)
Definition starts_value (text : string) : bool :=
  match text with
  | EmptyString => false
  | String c _ =>
      negb (is_ws c) && negb (Ascii.eqb c "]"%char)
      && negb (Ascii.eqb c "}"%char)
  end.

(** Fuel that is enough for [parse_value] to read the text of [v]. *)
Fixpoint cost (v : value) : nat :=
  match v with
  | PyList items => S (list_sum (map (fun x => S (cost x)) items))
  | Dict entries =>
      S (list_sum (map (fun kv : string * value => S (cost (snd kv))) entries))
  | _ => 1
  end.

(** The round trip of one value, in the form the induction needs: the text
    exists, starts as a value does, is long enough to pay for the fuel, and
    is read back whatever follows it. *)
Definition round_trips (v : value) : Prop :=
  representable v = true ->
  exists text,
    dumps v = Some text
    /\ starts_value text = true
    /\ cost v <= String.length text
    /\ forall fuel tail,
         cost v <= fuel -> number_ends tail = true ->
         parse_value fuel (text ++ tail) = Some (v, tail).

End Json.

(** ** The script *)

(** Lines 9-41. *)
Definition workflow_data : value :=
  Dict [
    ("name", Str "MCP Enhanced Content Pipeline");
    ("description", Str "Content processing with MCP enhancements");
    ("nodes", PyList [
      Dict [
        ("name", Str "Content Webhook");
        ("type", Str "webhook");
        ("parameters", Dict [
          ("httpMethod", Str "POST");
          ("path", Str "content-pipeline")
        ]);
        ("position", PyList [Int 240; Int 300])
      ];
      Dict [
        ("name", Str "MCP Analysis");
        ("type", Str "function");
        ("parameters", Dict [
          ("code", Str "
const data = $json.body || $json;
return {
  asset_id: data.id,
  content_type: data.content_type || 'single_image',
  owner: data.owner,
  mcp_processed: true,
  quality_score: Math.floor(Math.random() * 100),
  processed_at: new Date().toISOString()
};
")
        ]);
        ("position", PyList [Int 460; Int 300])
      ]
    ])
  ].

(** ** The lines the claims speak of *)

Definition success_marker : string := "✅".

Definition preamble : list string :=
  [ "🚀 MCP Workflow Deployment via Configured Container";
    "📋 Attempting MCP workflow creation..." ].

Definition configured_lines : list string :=
  [ "🎉 MCP is properly configured!";
    "✅ The N8N-MCP integration is working";
    "🚀 Ready for direct workflow deployment through MCP tools" ].

Definition adjustment_line : string :=
  "🔧 MCP configuration may need adjustment".

Definition timeout_line : string := "⏰ MCP test timed out".

Definition checklist : list string :=
  [ "1. MCP container is configured with N8N API access";
    "2. Use MCP tools for workflow management";
    "3. Test workflow deployment via MCP" ].

Definition next_steps : list string :=
  String nl "📋 Next Steps:" :: checklist.

(** The captured text as the script relays it: the standard output
    always, the standard error under its heading when there is any. *)
Definition errors_block (err : string) : list string :=
  if str_truthy err then ["⚠️ Errors:"; err] else [].

Definition relayed (r : CompletedProcess) : list string :=
  "📊 MCP Container Output:" :: stdout r :: errors_block (stderr r).

(** The lines of the two classification branches. *)
Definition verdict_lines : list string := adjustment_line :: configured_lines.

(** ** Sample environments *)

Definition sample_script : string := "console.log('probe');".

Definition sample_ok : CompletedProcess :=
  mkCompleted
    ["docker"; "exec"; "n8n-mcp-configured"; "node"; "-e"; sample_script] 0
    "Testing MCP workflow creation...
MCP Container N8N API Status: 200
✅ MCP container can access N8N API!
🎯 Ready for MCP workflow deployment
" EmptyString.

Definition sample_denied : CompletedProcess :=
  mkCompleted
    ["docker"; "exec"; "n8n-mcp-configured"; "node"; "-e"; sample_script] 0
    "Testing MCP workflow creation...
MCP Container N8N API Status: 401
❌ MCP container API access issue
" "(node) warning".

(** The same standard output twice, with different standard errors and
    return codes. *)
Definition sample_quiet : CompletedProcess :=
  mkCompleted (args sample_denied) 0 (stdout sample_denied) EmptyString.

Definition sample_noisy : CompletedProcess :=
  mkCompleted (args sample_denied) 1 (stdout sample_denied)
              "✅ written to the standard error".

(** A subprocess whose standard error happens to be a line of the script. *)
Definition sample_echo : CompletedProcess :=
  mkCompleted (args sample_ok) 0 (stdout sample_ok)
              "🔧 MCP configuration may need adjustment".

Definition sample_timeout : exn :=
  mkExn TimeoutExpired "Command 'docker' timed out after 30 seconds".

Definition sample_missing : exn :=
  mkExn FileNotFoundError "[Errno 2] No such file or directory: 'docker'".

Definition sample_interrupt : exn := mkExn KeyboardInterrupt EmptyString.

Definition env_returns (r : CompletedProcess)
  : list string -> Z -> exn + CompletedProcess :=
  fun _ _ => inr r.

Definition env_raises (e : exn) : list string -> Z -> exn + CompletedProcess :=
  fun _ _ => inl e.

(** ** The inline script (lines 50-82)

    The text handed to [node -e] is JavaScript: it logs one line, issues an
    HTTPS request and logs again from two listeners.  What the request does
    is the list of events node emits on it, in order.  The callback given
    to [https.request] listens to ['response'] once; the listener added
    with [req.on('error', ...)] stays. *)

Module Node.

Inductive http_event : Type :=
| Response (statusCode : Z)
| RequestError (message : string).

(** Lines 57-65; the value of the key header is a parameter. *)
Record request_options : Type := mkOptions {
  hostname : string;
  port : Z;
  path : string;
  method : string;
  headers : list (string * string)
}.

Definition options (api_key : string) : request_options :=
  mkOptions "lifemastery.app.n8n.cloud" 443 "/api/v1/workflows" "GET"
            [("X-N8N-API-KEY", api_key)].

(** How [console.log] writes an integer. *)
Definition number_text (n : Z) : string :=
  NilZero.string_of_int (Z.to_int n).

(** [console.log(a, b, ...)] with a first argument free of format
    directives: the arguments separated by spaces, then a newline. *)
Definition console_log (arguments : list string) : string :=
  String.concat " " arguments ++ String nl EmptyString.

(** Lines 67-75, the callback of [https.request]. *)
Definition on_response (statusCode : Z) : string :=
  console_log ["MCP Container N8N API Status:"; number_text statusCode] ++
  if (statusCode =? 200)%Z then
    console_log ["✅ MCP container can access N8N API!"] ++
    console_log ["🎯 Ready for MCP workflow deployment"]
  else
    console_log ["❌ MCP container API access issue"].

(** Lines 77-79, the listener for ['error']. *)
Definition on_error (message : string) : string :=
  console_log ["💥 MCP API Error:"; message].

(** The listeners run in the order of the events; [responded] tells that
    the one-time callback has run. *)
Fixpoint deliver (responded : bool) (events : list http_event) : string :=
  match events with
  | [] => EmptyString
  | Response statusCode :: rest =>
      if responded then deliver true rest
      else on_response statusCode ++ deliver true rest
  | RequestError message :: rest => on_error message ++ deliver responded rest
  end.

(** The standard output of the script, given what [https.request] does. *)
Definition script_stdout
    (https_request : request_options -> list http_event) (api_key : string)
  : string :=
  console_log ["Testing MCP workflow creation..."] ++
  deliver false (https_request (options api_key)).

(** The status code that the callback sees, if a response comes. *)
Fixpoint first_status (events : list http_event) : option Z :=
  match events with
  | [] => None
  | Response statusCode :: _ => Some statusCode
  | RequestError _ :: rest => first_status rest
  end.

(** The messages of the errors, in order. *)
Fixpoint error_messages (events : list http_event) : list string :=
  match events with
  | [] => []
  | Response _ :: rest => error_messages rest
  | RequestError message :: rest => message :: error_messages rest
  end.

(** A request that is answered, and one that fails. *)
Definition answers (statusCode : Z) : request_options -> list http_event :=
  fun _ => [Response statusCode].

Definition fails (message : string) : request_options -> list http_event :=
  fun _ => [RequestError message].

End Node.

(** Captured results whose standard output is what the inline script
    writes for a given behaviour of the request. *)
Definition sample_key : string := "key".

Definition captured (https_request : Node.request_options -> list Node.http_event)
  : CompletedProcess :=
  mkCompleted
    ["docker"; "exec"; "n8n-mcp-configured"; "node"; "-e"; sample_script] 0
    (Node.script_stdout https_request sample_key) EmptyString.

(** A failure whose message happens to carry the marker. *)
Definition sample_false_alarm : CompletedProcess :=
  captured (Node.fails "proxy said: ✅ but closed the socket").

(** [docker exec] itself failing: nothing on the standard output. *)
Definition sample_no_container : CompletedProcess :=
  mkCompleted
    ["docker"; "exec"; "n8n-mcp-configured"; "node"; "-e"; sample_script] 1
    EmptyString
    "Error response from daemon: No such container: n8n-mcp-configured".

(** The denied result again, with another return code and no arguments
    recorded. *)
Definition sample_denied_again : CompletedProcess :=
  mkCompleted [] 7 (stdout sample_denied) (stderr sample_denied).

(** An environment that behaves like [env_returns sample_ok] on the call
    the script makes and fails on every other timeout. *)
Definition env_picky : list string -> Z -> exn + CompletedProcess :=
  fun _ timeout => if (timeout =? 30)%Z then inr sample_ok else inl sample_missing.

Section Script.

(** The text handed to [node -e] (lines 50-82).  The outer script never
    looks into it, so it stays abstract. *)
Variable inline_script : string.

(** [subprocess_run cmd timeout] is what
    [subprocess.run(cmd, capture_output=True, text=True, timeout=timeout)]
    does in the run at hand: it returns or it raises. *)
Variable subprocess_run : list string -> Z -> exn + CompletedProcess.

Definition call_subprocess_run (c : list string) (timeout : Z)
  : M CompletedProcess :=
  fun w => (subprocess_run c timeout, w).

(** Lines 48-83. *)
Definition cmd : list string :=
  ["docker"; "exec"; "n8n-mcp-configured"; "node"; "-e"; inline_script].

(** Line 6. *)
Definition banner : M unit :=
  print "🚀 MCP Workflow Deployment via Configured Container".

(** Lines 9-41. *)
Definition build_payload : M unit :=
  set_workflow_data workflow_data.

(** Lines 87-92. *)
Definition relay_output : M unit :=
  print "📊 MCP Container Output:" ;;
  result <- get_result ;;
  print (stdout result) ;;
  result <- get_result ;;
  if str_truthy (stderr result) then
    print "⚠️ Errors:" ;;
    result <- get_result ;;
    print (stderr result)
  else ret tt.

(** Lines 94-100. *)
Definition classification : M unit :=
  result <- get_result ;;
  if str_in "✅" (stdout result) then
    print "🎉 MCP is properly configured!" ;;
    print "✅ The N8N-MCP integration is working" ;;
    print "🚀 Ready for direct workflow deployment through MCP tools"
  else
    print "🔧 MCP configuration may need adjustment".

(** Lines 45-100, the body of the [try]. *)
Definition try_body : M unit :=
  print "📋 Attempting MCP workflow creation..." ;;
  set_cmd cmd ;;
  c <- get_cmd ;;
  r <- call_subprocess_run c 30 ;;
  set_result r ;;
  relay_output ;;
  classification.

(** Lines 44-105. *)
Definition probe : M unit :=
  try_except try_body
    [ (TimeoutExpired, fun _ => print "⏰ MCP test timed out");
      (Exception, fun e => print ("💥 Error: " ++ exn_str e)) ].

(** Lines 107-110. *)
Definition closing : M unit :=
  print (String nl "📋 Next Steps:") ;;
  print "1. MCP container is configured with N8N API access" ;;
  print "2. Use MCP tools for workflow management" ;;
  print "3. Test workflow deployment via MCP".

(** The module body. *)
Definition main : M unit :=
  banner ;; build_payload ;; probe ;; closing.

(** The same module with lines 9-41 taken out. *)
Definition main_without_payload : M unit :=
  banner ;; probe ;; closing.

(** What a run writes and how it ends. *)
Definition final_world : world := snd (main initial_world).
Definition ending : exn + unit := fst (main initial_world).
Definition printed : list string := sys_stdout final_world.
Definition status : process_end := exit_status ending.

(** The module body, with or without lines 9-41, is the [try] statement
    run after the banner and followed by the closing lines. *)
Definition body (payload : option value) : M unit :=
  fun w =>
    match probe (mkWorld payload None None
                   ["🚀 MCP Workflow Deployment via Configured Container"]) with
    | (inl e, w') => (inl e, w')
    | (inr _, w') => closing w'
    end.

(** ** How the [try] statement runs *)

Lemma skipn_length_app {A} (l l' : list A) : skipn (length l) (l ++ l') = l'.
Proof. induction l as [|a l IH]; simpl; auto. Qed.

Lemma timeout_is_exception c :
  issubclass c TimeoutExpired = true -> issubclass c Exception = true.
Proof. destruct c; simpl; intros H; try discriminate H; reflexivity. Qed.

Lemma relay_output_runs r w :
  g_result w = Some r ->
  relay_output w =
  (inr tt, mkWorld (g_workflow_data w) (g_cmd w) (g_result w)
                   (sys_stdout w ++ relayed r)).
Proof.
  destruct w as [wd c res out]; simpl; intros ->.
  unfold relay_output, relayed, errors_block, bind, print, get_result, ret; simpl.
  destruct (str_truthy (stderr r)); simpl;
    repeat rewrite <- app_assoc; reflexivity.
Qed.

Lemma classification_runs r w :
  g_result w = Some r ->
  classification w =
  (inr tt, mkWorld (g_workflow_data w) (g_cmd w) (g_result w)
                   (sys_stdout w ++
                    if str_in success_marker (stdout r)
                    then configured_lines else [adjustment_line])).
Proof.
  destruct w as [wd c res out]; simpl; intros ->.
  unfold classification, success_marker, bind, print, get_result; simpl.
  destruct (str_in _ (stdout r)); simpl;
    repeat rewrite <- app_assoc; reflexivity.
Qed.

Lemma try_body_returned r w :
  subprocess_run cmd 30 = inr r ->
  try_body w =
  (inr tt, mkWorld (g_workflow_data w) (Some cmd) (Some r)
                   (sys_stdout w ++
                    ["📋 Attempting MCP workflow creation..."] ++ relayed r ++
                    if str_in success_marker (stdout r)
                    then configured_lines else [adjustment_line])).
Proof.
  intros Hrun. unfold try_body.
  unfold bind at 1. unfold print at 1.
  unfold bind at 1. unfold set_cmd at 1.
  unfold bind at 1. unfold get_cmd at 1. cbn [g_cmd].
  unfold bind at 1. unfold call_subprocess_run at 1. rewrite Hrun.
  unfold bind at 1. unfold set_result at 1. cbn [g_workflow_data g_cmd sys_stdout].
  unfold bind at 1. rewrite (relay_output_runs r) by reflexivity.
  rewrite (classification_runs r) by reflexivity.
  cbn [g_workflow_data g_cmd g_result sys_stdout].
  repeat rewrite <- app_assoc. reflexivity.
Qed.

Lemma try_body_raised e w :
  subprocess_run cmd 30 = inl e ->
  try_body w =
  (inl e, mkWorld (g_workflow_data w) (Some cmd) (g_result w)
                  (sys_stdout w ++ ["📋 Attempting MCP workflow creation..."])).
Proof.
  intros Hrun. unfold try_body.
  unfold bind at 1. unfold print at 1.
  unfold bind at 1. unfold set_cmd at 1.
  unfold bind at 1. unfold get_cmd at 1. cbn [g_cmd].
  unfold bind at 1. unfold call_subprocess_run at 1. rewrite Hrun.
  reflexivity.
Qed.

Lemma probe_returned r w :
  subprocess_run cmd 30 = inr r ->
  probe w =
  (inr tt, mkWorld (g_workflow_data w) (Some cmd) (Some r)
                   (sys_stdout w ++
                    ["📋 Attempting MCP workflow creation..."] ++ relayed r ++
                    if str_in success_marker (stdout r)
                    then configured_lines else [adjustment_line])).
Proof.
  intros Hrun. unfold probe, try_except.
  rewrite (try_body_returned r w Hrun). reflexivity.
Qed.

Lemma probe_timed_out e w :
  subprocess_run cmd 30 = inl e ->
  isinstance e TimeoutExpired = true ->
  probe w =
  (inr tt, mkWorld (g_workflow_data w) (Some cmd) (g_result w)
                   (sys_stdout w ++
                    ["📋 Attempting MCP workflow creation..."; timeout_line])).
Proof.
  intros Hrun Ht. unfold probe, try_except.
  rewrite (try_body_raised e w Hrun). cbn [dispatch]. rewrite Ht.
  unfold print; simpl. rewrite <- app_assoc. reflexivity.
Qed.

Lemma probe_failed e w :
  subprocess_run cmd 30 = inl e ->
  isinstance e TimeoutExpired = false ->
  isinstance e Exception = true ->
  probe w =
  (inr tt, mkWorld (g_workflow_data w) (Some cmd) (g_result w)
                   (sys_stdout w ++
                    ["📋 Attempting MCP workflow creation...";
                     "💥 Error: " ++ exn_str e])).
Proof.
  intros Hrun Ht He. unfold probe, try_except.
  rewrite (try_body_raised e w Hrun). cbn [dispatch]. rewrite Ht, He.
  unfold print; simpl. rewrite <- app_assoc. reflexivity.
Qed.

Lemma probe_propagates e w :
  subprocess_run cmd 30 = inl e ->
  isinstance e Exception = false ->
  probe w =
  (inl e, mkWorld (g_workflow_data w) (Some cmd) (g_result w)
                  (sys_stdout w ++ ["📋 Attempting MCP workflow creation..."])).
Proof.
  intros Hrun He. unfold probe, try_except.
  rewrite (try_body_raised e w Hrun). cbn [dispatch].
  assert (Ht : isinstance e TimeoutExpired = false).
  { destruct (isinstance e TimeoutExpired) eqn:Ht; [|reflexivity].
    apply timeout_is_exception in Ht. unfold isinstance in He. congruence. }
  rewrite Ht, He. reflexivity.
Qed.

(** ** Whole runs, one lemma per way the subprocess call can end *)

Lemma main_unfolded : main initial_world = body (Some workflow_data) initial_world.
Proof. reflexivity. Qed.

Lemma main_without_payload_unfolded :
  main_without_payload initial_world = body None initial_world.
Proof. reflexivity. Qed.

Lemma body_returned payload r :
  subprocess_run cmd 30 = inr r ->
  body payload initial_world =
  (inr tt, mkWorld payload (Some cmd) (Some r)
                   (preamble ++ relayed r ++
                    (if str_in success_marker (stdout r)
                     then configured_lines else [adjustment_line]) ++
                    next_steps)).
Proof.
  intros Hrun. unfold body. rewrite (probe_returned r _ Hrun).
  unfold closing, bind, print; simpl.
  repeat rewrite <- app_assoc. reflexivity.
Qed.

Lemma body_timed_out payload e :
  subprocess_run cmd 30 = inl e ->
  isinstance e TimeoutExpired = true ->
  body payload initial_world =
  (inr tt, mkWorld payload (Some cmd) None
                   (preamble ++ [timeout_line] ++ next_steps)).
Proof.
  intros Hrun Ht. unfold body. rewrite (probe_timed_out e _ Hrun Ht).
  reflexivity.
Qed.

Lemma body_failed payload e :
  subprocess_run cmd 30 = inl e ->
  isinstance e TimeoutExpired = false ->
  isinstance e Exception = true ->
  body payload initial_world =
  (inr tt, mkWorld payload (Some cmd) None
                   (preamble ++ ["💥 Error: " ++ exn_str e] ++ next_steps)).
Proof.
  intros Hrun Ht He. unfold body. rewrite (probe_failed e _ Hrun Ht He).
  reflexivity.
Qed.

Lemma body_propagates payload e :
  subprocess_run cmd 30 = inl e ->
  isinstance e Exception = false ->
  body payload initial_world =
  (inl e, mkWorld payload (Some cmd) None preamble).
Proof.
  intros Hrun He. unfold body. rewrite (probe_propagates e _ Hrun He).
  reflexivity.
Qed.


(** ** Properties of a run *)

Local Open Scope list_scope.

(** Whatever the subprocess call does, the run touches the payload slot of
    the namespace in no other way than by carrying it along. *)
Lemma body_frame :
  exists ending' c r lines,
    forall payload,
      body payload initial_world = (ending', mkWorld payload c r lines).
Proof.
  destruct (subprocess_run cmd 30) as [e | r] eqn:Hrun.
  - destruct (isinstance e Exception) eqn:He.
    + destruct (isinstance e TimeoutExpired) eqn:Ht.
      * do 4 eexists. intros payload. apply (body_timed_out payload e Hrun Ht).
      * do 4 eexists. intros payload. apply (body_failed payload e Hrun Ht He).
    + do 4 eexists. intros payload. apply (body_propagates payload e Hrun He).
  - do 4 eexists. intros payload. apply (body_returned payload r Hrun).
Qed.

(** When the call returns or raises an instance of [Exception], the run
    goes through to the closing lines. *)
Lemma body_reaches_closing payload :
  (forall e, subprocess_run cmd 30 = inl e -> isinstance e Exception = true) ->
  exists c r before,
    body payload initial_world =
    (inr tt, mkWorld payload c r (before ++ next_steps)).
Proof.
  intros Hexc. destruct (subprocess_run cmd 30) as [e | r] eqn:Hrun.
  - pose proof (Hexc e eq_refl) as He.
    destruct (isinstance e TimeoutExpired) eqn:Ht.
    + exists (Some cmd), None, (preamble ++ [timeout_line]).
      rewrite (body_timed_out payload e Hrun Ht), <- app_assoc. reflexivity.
    + exists (Some cmd), None, (preamble ++ [("💥 Error: " ++ exn_str e)%string]).
      rewrite (body_failed payload e Hrun Ht He), <- app_assoc. reflexivity.
  - exists (Some cmd), (Some r),
      (preamble ++ relayed r ++
       if str_in success_marker (stdout r)
       then configured_lines else [adjustment_line]).
    rewrite (body_returned payload r Hrun).
    repeat rewrite <- app_assoc. reflexivity.
Qed.

Ltac not_among :=
  let H := fresh "H" in
  simpl; intros H;
  repeat (destruct H as [H | H]; [discriminate H |]);
  exact H.

(** C1: when the subprocess returns within the timeout and its captured
    standard output contains the marker, the summary (what lines 95-100
    write, placed between the relayed subprocess text and the closing
    checklist) is the three confirmation lines, all of them are in the
    output, and the summary does not contain the adjustment line. *)
Theorem marker_found_reports_configured (r : CompletedProcess) :
  subprocess_run cmd 30 = inr r ->
  str_in "✅" (stdout r) = true ->
  exists summary,
    printed = preamble ++ relayed r ++ summary ++ next_steps
    /\ (forall w, g_result w = Some r -> written_by classification w = summary)
    /\ summary = [ "🎉 MCP is properly configured!";
                   "✅ The N8N-MCP integration is working";
                   "🚀 Ready for direct workflow deployment through MCP tools" ]
    /\ (forall l, In l summary -> In l printed)
    /\ ~ In "🔧 MCP configuration may need adjustment" summary.
Proof.
  intros Hrun Hmark. exists configured_lines.
  assert (Hout : printed = preamble ++ relayed r ++ configured_lines ++ next_steps).
  { unfold printed, final_world. rewrite main_unfolded, (body_returned _ r Hrun).
    unfold success_marker. rewrite Hmark. reflexivity. }
  split; [exact Hout|]. split.
  - intros w Hw. unfold written_by. rewrite (classification_runs r w Hw).
    unfold success_marker. rewrite Hmark. apply skipn_length_app.
  - split; [reflexivity|]. split.
    + intros l Hl. rewrite Hout.
      apply in_or_app; right. apply in_or_app; right.
      apply in_or_app; left. exact Hl.
    + not_among.
Qed.

(** C2: when the subprocess returns within the timeout and its captured
    standard output does not contain the marker, the summary is the
    adjustment line alone: that line is in the output and none of the three
    confirmation lines is in the summary. *)
Theorem marker_absent_reports_adjustment (r : CompletedProcess) :
  subprocess_run cmd 30 = inr r ->
  str_in "✅" (stdout r) = false ->
  exists summary,
    printed = preamble ++ relayed r ++ summary ++ next_steps
    /\ (forall w, g_result w = Some r -> written_by classification w = summary)
    /\ summary = [ "🔧 MCP configuration may need adjustment" ]
    /\ In "🔧 MCP configuration may need adjustment" printed
    /\ (forall l, In l configured_lines -> ~ In l summary).
Proof.
  intros Hrun Hmark. exists [adjustment_line].
  assert (Hout : printed = preamble ++ relayed r ++ [adjustment_line] ++ next_steps).
  { unfold printed, final_world. rewrite main_unfolded, (body_returned _ r Hrun).
    unfold success_marker. rewrite Hmark. reflexivity. }
  split; [exact Hout|]. split.
  - intros w Hw. unfold written_by. rewrite (classification_runs r w Hw).
    unfold success_marker. rewrite Hmark. apply skipn_length_app.
  - split; [reflexivity|]. split.
    + rewrite Hout.
      apply in_or_app; right. apply in_or_app; right.
      apply in_or_app; left. left; reflexivity.
    + intros l Hl.
      repeat (destruct Hl as [<- | Hl]; [not_among |]). destruct Hl.
Qed.

(** C3: when [subprocess.run], called with the timeout of 30, raises
    [TimeoutExpired], the output is the banner, the attempt line, the
    timeout message and the closing checklist; the timeout message occurs
    once, and neither the adjustment line nor a confirmation line occurs. *)
Theorem timeout_reports_timed_out (e : exn) :
  subprocess_run cmd 30 = inl e ->
  isinstance e TimeoutExpired = true ->
  printed = preamble ++ [ "⏰ MCP test timed out" ] ++ next_steps
  /\ count_occ string_dec printed "⏰ MCP test timed out" = 1
  /\ (forall l, In l verdict_lines -> ~ In l printed).
Proof.
  intros Hrun Ht.
  assert (Hout : printed = preamble ++ [timeout_line] ++ next_steps).
  { unfold printed, final_world.
    rewrite main_unfolded, (body_timed_out _ e Hrun Ht). reflexivity. }
  split; [exact Hout|]. rewrite Hout. split.
  - vm_compute. reflexivity.
  - intros l Hl.
    repeat (destruct Hl as [<- | Hl]; [not_among |]). destruct Hl.
Qed.

(** C4: when [subprocess.run] raises an exception that is not
    [TimeoutExpired], the output is the banner, the attempt line, the line
    made of the error prefix and [str(e)], and the closing checklist; the
    message is part of the console text, and neither the adjustment line
    nor a confirmation line is printed. *)
Theorem error_reports_message (e : exn) :
  subprocess_run cmd 30 = inl e ->
  isinstance e Exception = true ->
  isinstance e TimeoutExpired = false ->
  printed = preamble ++ [ ("💥 Error: " ++ exn_str e)%string ] ++ next_steps
  /\ (exists before after,
        console_text final_world = (before ++ exn_str e ++ after)%string)
  /\ (forall l, In l verdict_lines -> ~ In l printed).
Proof.
  intros Hrun He Ht.
  assert (Hout : printed =
                 preamble ++ [("💥 Error: " ++ exn_str e)%string] ++ next_steps).
  { unfold printed, final_world.
    rewrite main_unfolded, (body_failed _ e Hrun Ht He). reflexivity. }
  split; [exact Hout|]. split.
  - exists (text_of preamble ++ "💥 Error: ")%string, (String nl (text_of next_steps)).
    unfold console_text. fold printed. rewrite Hout.
    unfold text_of; simpl. reflexivity.
  - rewrite Hout. intros l Hl.
    repeat (destruct Hl as [<- | Hl]; [not_among |]). destruct Hl.
Qed.

(** C5: in each of the four outcomes (marker found, marker absent, timeout,
    other error: the call returns, or raises an instance of [Exception]),
    the heading and the three lines of the checklist are the last four
    entries of the output. *)
Theorem checklist_printed_last :
  (forall e, subprocess_run cmd 30 = inl e -> isinstance e Exception = true) ->
  exists before,
    printed = before ++
              [ String nl "📋 Next Steps:";
                "1. MCP container is configured with N8N API access";
                "2. Use MCP tools for workflow management";
                "3. Test workflow deployment via MCP" ].
Proof.
  intros Hexc.
  destruct (body_reaches_closing (Some workflow_data) Hexc)
    as (c & r & before & Hbody).
  exists before. unfold printed, final_world.
  rewrite main_unfolded, Hbody. reflexivity.
Qed.

(** C6: for every outcome of the subprocess call that is a return, a
    timeout or any other error, the [try] statement of lines 44-105 ends
    normally from every state: the condition is caught there and nothing
    is raised again.  A caught condition is turned into printed text and
    nothing else: after the attempt line the console gets the timeout line
    or the error line with [str(e)], [cmd] is bound and [result] is left
    as it was.  So a whole run prints the banner, the attempt line, the
    report of the outcome and the closing checklist, the module body runs
    to its end and the exit status is 0. *)
Theorem every_outcome_exits_normally :
  (forall e, subprocess_run cmd 30 = inl e -> isinstance e Exception = true) ->
  (forall w,
     probe w =
     (inr tt,
      mkWorld (g_workflow_data w) (Some cmd)
        match subprocess_run cmd 30 with
        | inr r => Some r
        | inl _ => g_result w
        end
        (sys_stdout w ++
         "📋 Attempting MCP workflow creation..." ::
         match subprocess_run cmd 30 with
         | inr r =>
             relayed r ++
             (if str_in "✅" (stdout r)
              then configured_lines else [adjustment_line])
         | inl e =>
             [ if isinstance e TimeoutExpired
               then "⏰ MCP test timed out"
               else ("💥 Error: " ++ exn_str e)%string ]
         end)))
  /\ ending = inr tt
  /\ status = Exits 0
  /\ final_world =
       mkWorld (Some workflow_data) (Some cmd)
         match subprocess_run cmd 30 with
         | inr r => Some r
         | inl _ => None
         end
         (preamble ++
          match subprocess_run cmd 30 with
          | inr r =>
              relayed r ++
              (if str_in "✅" (stdout r)
               then configured_lines else [adjustment_line])
          | inl e =>
              [ if isinstance e TimeoutExpired
                then "⏰ MCP test timed out"
                else ("💥 Error: " ++ exn_str e)%string ]
          end ++ next_steps)
  /\ exists before, printed = before ++ next_steps.
Proof.
  intros Hexc. split.
  { intros w. destruct (subprocess_run cmd 30) as [e | r] eqn:Hrun.
    - pose proof (Hexc e eq_refl) as He.
      destruct (isinstance e TimeoutExpired) eqn:Ht.
      + exact (probe_timed_out e w Hrun Ht).
      + exact (probe_failed e w Hrun Ht He).
    - exact (probe_returned r w Hrun). }
  unfold status, printed, final_world, ending. rewrite main_unfolded.
  destruct (subprocess_run cmd 30) as [e | r] eqn:Hrun.
  - pose proof (Hexc e eq_refl) as He.
    destruct (isinstance e TimeoutExpired) eqn:Ht.
    + rewrite (body_timed_out _ e Hrun Ht).
      repeat split. exists (preamble ++ [timeout_line]).
      cbn [snd sys_stdout]. rewrite <- app_assoc. reflexivity.
    + rewrite (body_failed _ e Hrun Ht He).
      repeat split.
      exists (preamble ++ [("💥 Error: " ++ exn_str e)%string]).
      cbn [snd sys_stdout]. rewrite <- app_assoc. reflexivity.
  - rewrite (body_returned _ r Hrun). cbn [fst snd sys_stdout].
    split; [reflexivity|]. split; [reflexivity|]. split.
    + f_equal. f_equal. rewrite <- app_assoc. reflexivity.
    + exists (preamble ++ relayed r ++
              if str_in success_marker (stdout r)
              then configured_lines else [adjustment_line]).
      repeat rewrite <- app_assoc. reflexivity.
Qed.

(** C7: in every run the name [workflow_data] is bound to the literal of
    lines 9-41, whose ["nodes"] entry is a list of exactly two nodes, named
    "Content Webhook" and "MCP Analysis" in that order, at positions
    [240, 300] and [460, 300]. *)
Theorem workflow_data_has_two_nodes :
  g_workflow_data final_world = Some workflow_data
  /\ exists first second,
       getitem workflow_data "nodes" = Some (PyList [first; second])
       /\ getitem first "name" = Some (Str "Content Webhook")
       /\ getitem first "position" = Some (PyList [Int 240; Int 300])
       /\ getitem second "name" = Some (Str "MCP Analysis")
       /\ getitem second "position" = Some (PyList [Int 460; Int 300]).
Proof.
  split.
  - destruct body_frame as (e' & c & r & lines & Hbody).
    unfold final_world. rewrite main_unfolded, Hbody. reflexivity.
  - do 2 eexists. repeat split; reflexivity.
Qed.

(** C9: the run of the script and the run of the script without lines 9-41
    write the same output and end the same way, hence with the same exit
    status; nothing after the assignment reads [workflow_data]. *)
Theorem payload_never_consumed :
  sys_stdout (snd (main_without_payload initial_world)) = printed
  /\ fst (main_without_payload initial_world) = ending
  /\ exit_status (fst (main_without_payload initial_world)) = status.
Proof.
  destruct body_frame as (e' & c & r & lines & Hbody).
  unfold status, printed, final_world, ending.
  rewrite main_unfolded, main_without_payload_unfolded, !Hbody.
  repeat split; reflexivity.
Qed.

End Script.

(** ** [str_in] is the substring test *)

Lemma prefix_spec (n h : string) :
  String.prefix n h = true <-> exists b, h = n ++ b.
Proof.
  revert h. induction n as [|c n IH]; intros h.
  - split; [intros _; exists h; reflexivity | destruct h; reflexivity].
  - destruct h as [|d h]; simpl.
    + split; [discriminate | intros [b Hb]; discriminate Hb].
    + destruct (ascii_dec c d) as [<- | Hcd].
      * rewrite IH. split; intros [b Hb]; exists b.
        -- rewrite Hb. reflexivity.
        -- injection Hb as ->. reflexivity.
      * split; [discriminate|].
        intros [b Hb]. injection Hb as Hc _. congruence.
Qed.

Lemma str_in_spec (n h : string) :
  str_in n h = true <-> exists a b, h = a ++ n ++ b.
Proof.
  induction h as [|c h IH].
  - change (str_in n EmptyString) with (String.prefix n EmptyString || false).
    rewrite orb_false_r, prefix_spec. split.
    + intros [b Hb]. exists EmptyString, b. exact Hb.
    + intros (a & b & Hab). destruct a; [|discriminate Hab].
      exists b. exact Hab.
  - change (str_in n (String c h))
      with (String.prefix n (String c h) || str_in n h).
    rewrite orb_true_iff, prefix_spec, IH. split.
    + intros [[b Hb] | (a & b & Hab)].
      * exists EmptyString, b. exact Hb.
      * exists (String c a), b. rewrite Hab. reflexivity.
    + intros (a & b & Hab). destruct a as [|d a].
      * left. exists b. exact Hab.
      * right. injection Hab as _ ->. exists a, b. reflexivity.
Qed.

(** ** JSON: reading back what was written *)

Module JsonFacts.
Import Json.

Lemma append_assoc (a b c : string) : ((a ++ b) ++ c = a ++ (b ++ c))%string.
Proof. induction a as [|x a IH]; simpl; [reflexivity | now rewrite IH]. Qed.

Lemma append_nil_r (a : string) : (a ++ EmptyString = a)%string.
Proof. induction a as [|x a IH]; simpl; [reflexivity | now rewrite IH]. Qed.

Lemma length_append (a b : string) :
  String.length (a ++ b) = String.length a + String.length b.
Proof. induction a as [|x a IH]; simpl; [reflexivity | now rewrite IH]. Qed.

Ltac each_char c := destruct c as [[] [] [] [] [] [] [] []].

(** *** Strings *)

Lemma scan_string_escape_char c a :
  escape_char c = Some a ->
  forall tail, scan_string (a ++ tail) = push c (scan_string tail).
Proof.
  each_char c; intros H tail; vm_compute in H;
    first [discriminate H | injection H as <-; reflexivity].
Qed.

Lemma scan_string_escape s :
  forall body tail,
    escape s = Some body ->
    scan_string (body ++ String dquote tail) = Some (s, tail).
Proof.
  induction s as [|c s IH]; simpl; intros body tail H.
  - injection H as <-. reflexivity.
  - destruct (escape_char c) as [a|] eqn:Hc; [|discriminate H].
    destruct (escape s) as [b|] eqn:Hs; [|discriminate H].
    injection H as <-. rewrite append_assoc.
    rewrite (scan_string_escape_char c a Hc), (IH b tail eq_refl).
    reflexivity.
Qed.

Lemma escape_char_ascii c :
  (code c <? 128)%N = true -> exists a, escape_char c = Some a.
Proof.
  each_char c; intros H; vm_compute in H; try discriminate H;
    eexists; vm_compute; reflexivity.
Qed.

Lemma escape_ascii s : is_ascii s = true -> exists body, escape s = Some body.
Proof.
  induction s as [|c s IH]; simpl; intros H.
  - eexists; reflexivity.
  - apply andb_true_iff in H as [Hc Hs].
    destruct (escape_char_ascii c Hc) as [a ->].
    destruct (IH Hs) as [b ->]. eexists; reflexivity.
Qed.

(** *** Numbers *)

Lemma span_digits_stop tail :
  number_ends tail = true -> span_digits tail = (EmptyString, tail).
Proof.
  destruct tail as [|c tail]; simpl; [reflexivity|].
  destruct (is_digit c); simpl; [discriminate | reflexivity].
Qed.

Lemma span_digits_uint (u : Decimal.uint) tail :
  number_ends tail = true ->
  span_digits (NilEmpty.string_of_uint u ++ tail)
  = (NilEmpty.string_of_uint u, tail).
Proof.
  intros Htail. induction u; simpl;
    try (rewrite IHu; reflexivity).
  apply span_digits_stop, Htail.
Qed.

(** A normal form that starts with a zero is the numeral zero. *)
Lemma unorm_head_zero (u v : Decimal.uint) :
  Decimal.unorm u = Decimal.D0 v -> v = Decimal.Nil.
Proof.
  induction u; simpl; intros H; try discriminate H; auto.
  injection H as <-. reflexivity.
Qed.

Lemma to_uint_head (p : positive) (v : Decimal.uint) :
  Pos.to_uint p <> Decimal.D0 v.
Proof.
  intros H.
  assert (Hn : Decimal.unorm (Pos.to_uint p) = Pos.to_uint p).
  { change (Pos.to_uint p) with (N.to_uint (N.pos p)) at 2.
    rewrite <- (DecimalN.Unsigned.to_of (Pos.to_uint p)).
    f_equal. apply DecimalPos.Unsigned.of_to. }
  rewrite H in Hn. pose proof (unorm_head_zero _ _ Hn) as ->.
  exact (DecimalPos.Unsigned.to_uint_nonzero p H).
Qed.

Lemma number_ends_no_fraction tail :
  number_ends tail = true -> starts_fraction tail = false.
Proof.
  destruct tail as [|c tail]; [reflexivity|].
  each_char c; vm_compute; intros H; try discriminate H;
    try reflexivity; destruct tail; reflexivity.
Qed.

(** The digits of a positive number are read back as that number. *)
Lemma scan_positive (p : positive) tail :
  number_ends tail = true ->
  exists c digits,
    NilZero.string_of_uint (Pos.to_uint p) = String c digits
    /\ is_digit c = true
    /\ c <> "0"%char
    /\ span_digits (String c digits ++ tail) = (String c digits, tail)
    /\ NilZero.uint_of_string (String c digits) = Some (Pos.to_uint p)
    /\ Z.of_uint (Pos.to_uint p) = Z.pos p.
Proof.
  intros Htail.
  pose proof (DecimalPos.Unsigned.to_uint_nonnil p) as Hnil.
  pose proof (to_uint_head p) as Hzero.
  pose proof (NilZero.usu (Pos.to_uint p) Hnil) as Husu.
  assert (Hof : Z.of_uint (Pos.to_uint p) = Z.pos p).
  { unfold Z.of_uint. rewrite DecimalPos.Unsigned.of_to. reflexivity. }
  assert (Hspan : span_digits (NilZero.string_of_uint (Pos.to_uint p) ++ tail)
                  = (NilZero.string_of_uint (Pos.to_uint p), tail)).
  { destruct (Pos.to_uint p) eqn:E; try (exfalso; apply Hnil; reflexivity);
      apply (span_digits_uint _ tail Htail). }
  destruct (Pos.to_uint p) as [|u|u|u|u|u|u|u|u|u|u] eqn:E;
    [ exfalso; apply Hnil; reflexivity
    | exfalso; apply (Hzero u); reflexivity
    | .. ];
    (eexists; eexists; split; [reflexivity|];
     split; [reflexivity|]; split; [discriminate|];
     split; [exact Hspan|]; split; [exact Husu | exact Hof]).
Qed.

Lemma scan_sign_digit c rest :
  is_digit c = true -> scan_sign (String c rest) = (false, String c rest).
Proof. each_char c; intros H; try discriminate H; reflexivity. Qed.

Lemma scan_magnitude_digits c rest :
  is_digit c = true -> c <> "0"%char ->
  scan_magnitude (String c rest) =
  let (digits, rest') := span_digits (String c rest) in
  option_map (fun u => (Z.of_uint u, rest')) (NilZero.uint_of_string digits).
Proof.
  intros Hd Hc. unfold scan_magnitude.
  each_char c; try discriminate Hd; try reflexivity.
  exfalso; apply Hc; reflexivity.
Qed.

Lemma scan_magnitude_positive (p : positive) tail :
  number_ends tail = true ->
  scan_magnitude (NilZero.string_of_uint (Pos.to_uint p) ++ tail)
  = Some (Z.pos p, tail)
  /\ scan_sign (NilZero.string_of_uint (Pos.to_uint p) ++ tail)
     = (false, (NilZero.string_of_uint (Pos.to_uint p) ++ tail)%string).
Proof.
  intros Htail.
  destruct (scan_positive p tail Htail)
    as (c & digits & Hs & Hd & Hc & Hspan & Hread & Hof).
  rewrite Hs. split.
  - change (String c digits ++ tail)%string
      with (String c (digits ++ tail)) at 1.
    rewrite (scan_magnitude_digits c _ Hd Hc).
    change (String c (digits ++ tail)) with (String c digits ++ tail)%string.
    rewrite Hspan, Hread. simpl. rewrite Hof. reflexivity.
  - apply (scan_sign_digit c _ Hd).
Qed.

Lemma scan_number_repr (z : Z) tail :
  number_ends tail = true ->
  scan_number (repr_int z ++ tail) = Some (z, tail).
Proof.
  intros Htail. pose proof (number_ends_no_fraction tail Htail) as Hfrac.
  destruct z as [|p|p]; unfold repr_int, scan_number.
  - change (scan_sign (NilZero.string_of_int (Z.to_int 0) ++ tail))
      with (false, String "0" tail).
    cbv iota beta.
    change (scan_magnitude (String "0" tail)) with (Some (0%Z, tail)).
    cbv iota beta. rewrite Hfrac. reflexivity.
  - destruct (scan_magnitude_positive p tail Htail) as [Hmag Hsign].
    simpl Z.to_int. simpl NilZero.string_of_int.
    rewrite Hsign. cbv iota beta. rewrite Hmag. cbv iota beta.
    rewrite Hfrac. reflexivity.
  - destruct (scan_magnitude_positive p tail Htail) as [Hmag _].
    simpl Z.to_int. simpl NilZero.string_of_int.
    change (scan_sign (String "-" (NilZero.string_of_uint (Pos.to_uint p)) ++ tail))
      with (true, (NilZero.string_of_uint (Pos.to_uint p) ++ tail)%string).
    cbv iota beta. rewrite Hmag. cbv iota beta. rewrite Hfrac. reflexivity.
Qed.

(** *** Values *)

Lemma value_induction (P : value -> Prop) :
  P PyNone ->
  (forall b, P (PyBool b)) ->
  (forall s, P (Str s)) ->
  (forall z, P (Int z)) ->
  (forall items, Forall P items -> P (PyList items)) ->
  (forall entries, Forall (fun kv => P (snd kv)) entries -> P (Dict entries)) ->
  forall v, P v.
Proof.
  intros HNone HBool HStr HInt HList HDict.
  fix IH 1. intros [ | b | s | z | items | entries ].
  - exact HNone.
  - apply HBool.
  - apply HStr.
  - apply HInt.
  - apply HList. induction items as [|x items IHitems]; constructor.
    + apply IH.
    + exact IHitems.
  - apply HDict. induction entries as [|[k x] entries IHentries]; constructor.
    + apply IH.
    + exact IHentries.
Qed.

Lemma parse_value_space fuel s :
  parse_value fuel (String " " s) = parse_value fuel s.
Proof. destruct fuel; reflexivity. Qed.

Lemma parse_elements_unfold fuel acc s :
  parse_elements (S fuel) acc s =
  match parse_value fuel s with
  | Some (v, rest) =>
      match skip_ws rest with
      | String ","%char rest' => parse_elements fuel (acc ++ [v]) rest'
      | String "]"%char rest' => Some (PyList (acc ++ [v]), rest')
      | _ => None
      end
  | None => None
  end.
Proof. reflexivity. Qed.

Lemma parse_elements_space fuel acc s :
  parse_elements fuel acc (String " " s) = parse_elements fuel acc s.
Proof.
  destruct fuel; [reflexivity|].
  rewrite !parse_elements_unfold, parse_value_space. reflexivity.
Qed.

Lemma parse_members_space fuel acc s :
  parse_members fuel acc (String " " s) = parse_members fuel acc s.
Proof. destruct fuel; reflexivity. Qed.

Lemma parse_members_unfold fuel acc rest :
  parse_members (S fuel) acc (String dquote rest) =
  match scan_string rest with
  | Some (k, rest1) =>
      match skip_ws rest1 with
      | String ":"%char rest2 =>
          match parse_value fuel rest2 with
          | Some (v, rest3) =>
              match skip_ws rest3 with
              | String ","%char rest4 =>
                  parse_members fuel (setitem k v acc) rest4
              | String "}"%char rest4 => Some (Dict (setitem k v acc), rest4)
              | _ => None
              end
          | None => None
          end
      | _ => None
      end
  | None => None
  end.
Proof. reflexivity. Qed.

Lemma parse_value_quote fuel rest :
  parse_value (S fuel) (String dquote rest) =
  match scan_string rest with
  | Some (str, rest') => Some (Str str, rest')
  | None => None
  end.
Proof. reflexivity. Qed.

Lemma parse_value_number fuel c rest :
  is_digit c = true \/ c = "-"%char ->
  parse_value (S fuel) (String c rest) =
  match scan_number (String c rest) with
  | Some (n, rest') => Some (Int n, rest')
  | None => None
  end.
Proof.
  each_char c; intros [H | H]; try discriminate H; reflexivity.
Qed.

Lemma parse_value_list fuel rest :
  starts_value rest = true ->
  parse_value (S fuel) (String "[" rest) = parse_elements fuel [] rest.
Proof.
  destruct rest as [|c rest]; [discriminate|].
  each_char c; intros H; vm_compute in H; try discriminate H; reflexivity.
Qed.

Lemma parse_value_dict fuel rest :
  parse_value (S fuel) (String "{" (String dquote rest))
  = parse_members fuel [] (String dquote rest).
Proof. reflexivity. Qed.

Lemma repr_int_head z :
  exists c rest,
    repr_int z = String c rest /\ (is_digit c = true \/ c = "-"%char).
Proof.
  destruct z as [|p|p]; unfold repr_int; simpl Z.to_int;
    simpl NilZero.string_of_int.
  - do 2 eexists. split; [reflexivity | left; reflexivity].
  - destruct (scan_positive p EmptyString eq_refl)
      as (c & digits & Hs & Hd & _).
    exists c, digits. split; [exact Hs | left; exact Hd].
  - do 2 eexists. split; [reflexivity | right; reflexivity].
Qed.

Lemma number_head_starts_value c rest :
  is_digit c = true \/ c = "-"%char -> starts_value (String c rest) = true.
Proof. each_char c; intros [H | H]; try discriminate H; reflexivity. Qed.

(** *** Dictionaries keep their order when no key repeats *)

Lemma setitem_fresh k v acc :
  existsb (String.eqb k) (map fst acc) = false ->
  setitem k v acc = (acc ++ [(k, v)])%list.
Proof.
  induction acc as [|[k' v'] acc IH]; simpl; intros H; [reflexivity|].
  apply orb_false_iff in H as [Hk Hacc].
  rewrite Hk, (IH Hacc). reflexivity.
Qed.

Lemma distinct_middle l k rest :
  distinct (l ++ k :: rest)%list = true -> existsb (String.eqb k) l = false.
Proof.
  induction l as [|a l IH]; simpl; intros H; [reflexivity|].
  apply andb_true_iff in H as [Ha Hl].
  rewrite (IH Hl), orb_false_r.
  apply negb_true_iff in Ha. rewrite existsb_app in Ha.
  apply orb_false_iff in Ha as [_ Ha]. simpl in Ha.
  apply orb_false_iff in Ha as [Ha _].
  rewrite String.eqb_sym. exact Ha.
Qed.

(** *** Lists *)

Lemma parse_elements_more fuel acc text x rest :
  parse_value fuel (text ++ String "," (String " " rest))
  = Some (x, String "," (String " " rest)) ->
  parse_elements (S fuel) acc (text ++ String "," (String " " rest))
  = parse_elements fuel (acc ++ [x]) rest.
Proof.
  intros H. rewrite parse_elements_unfold, H.
  exact (parse_elements_space fuel (acc ++ [x]) rest).
Qed.

Lemma parse_elements_last fuel acc text x tail :
  parse_value fuel (text ++ String "]" tail) = Some (x, String "]" tail) ->
  parse_elements (S fuel) acc (text ++ String "]" tail)
  = Some (PyList (acc ++ [x]), tail).
Proof. intros H. rewrite parse_elements_unfold, H. reflexivity. Qed.

Lemma sequence_cons_inv {A} (o : option A) os (l : list A) :
  sequence (o :: os) = Some l ->
  exists a l', o = Some a /\ sequence os = Some l' /\ l = a :: l'.
Proof.
  simpl. destruct o as [a|]; [|discriminate].
  destruct (sequence os) as [l'|]; [|discriminate].
  simpl. intros H; injection H as <-. eauto.
Qed.

Lemma elements_round_trip items :
  Forall round_trips items ->
  forallb representable items = true ->
  exists parts,
    sequence (map dumps items) = Some parts
    /\ (items <> [] -> starts_value (String.concat ", " parts) = true)
    /\ list_sum (map (fun x => S (cost x)) items)
       <= String.length (String.concat ", " parts) + 1
    /\ forall fuel acc tail,
         items <> [] ->
         list_sum (map (fun x => S (cost x)) items) <= fuel ->
         parse_elements fuel acc (String.concat ", " parts ++ String "]" tail)
         = Some (PyList (acc ++ items), tail).
Proof.
  induction 1 as [|x xs Hx Hxs IH]; intros Hrep.
  - exists []. simpl. repeat split; try lia; intros; congruence.
  - simpl in Hrep. apply andb_true_iff in Hrep as [Hrx Hrxs].
    destruct (Hx Hrx) as (p & Hp & Hstart & Hcost & Hparse).
    destruct (IH Hrxs) as (ps & Hps & Hstart' & Hcost' & Hparse').
    exists (p :: ps).
    split; [simpl; rewrite Hp, Hps; reflexivity|].
    destruct xs as [|y ys].
    + simpl in Hps. injection Hps as <-. simpl String.concat.
      split; [intros _; exact Hstart|].
      split; [simpl; lia|].
      intros fuel acc tail _ Hfuel. simpl in Hfuel.
      destruct fuel as [|fuel]; [lia|].
      apply parse_elements_last, Hparse; [lia | reflexivity].
    + destruct (sequence_cons_inv _ _ _ Hps) as (p' & ps' & _ & _ & ->).
      change (String.concat ", " (p :: p' :: ps'))
        with (p ++ ", " ++ String.concat ", " (p' :: ps'))%string.
      assert (Hne : y :: ys <> []) by discriminate.
      split.
      { intros _. destruct p as [|c p]; [discriminate Hstart | exact Hstart]. }
      split.
      { rewrite !length_append.
        set (joined := String.concat ", " (p' :: ps')) in *.
        simpl in Hcost' |- *. lia. }
      intros fuel acc tail _ Hfuel.
      simpl map in Hfuel. simpl list_sum in Hfuel.
      destruct fuel as [|fuel]; [lia|].
      rewrite !append_assoc.
      change (", " ++ String.concat ", " (p' :: ps') ++ String "]" tail)%string
        with (String "," (String " "
                (String.concat ", " (p' :: ps') ++ String "]" tail))).
      rewrite (parse_elements_more fuel acc p x)
        by (apply Hparse; [lia | reflexivity]).
      rewrite (Hparse' fuel (acc ++ [x])%list tail Hne)
        by (simpl map; simpl list_sum; lia).
      rewrite <- app_assoc. reflexivity.
Qed.

(** *** Dictionaries *)

Lemma entry_text_shape kbody xtext rest :
  ((String dquote (kbody ++ String dquote EmptyString) ++ ": " ++ xtext)
   ++ rest)%string
  = String dquote
      (kbody ++ String dquote (String ":" (String " " (xtext ++ rest)))).
Proof. simpl. rewrite !append_assoc. reflexivity. Qed.

Lemma parse_members_entry fuel acc kbody k xtext x rest :
  escape k = Some kbody ->
  parse_value fuel (xtext ++ rest) = Some (x, rest) ->
  parse_members (S fuel) acc
    (String dquote
       (kbody ++ String dquote (String ":" (String " " (xtext ++ rest)))))
  = match skip_ws rest with
    | String ","%char rest' => parse_members fuel (setitem k x acc) rest'
    | String "}"%char rest' => Some (Dict (setitem k x acc), rest')
    | _ => None
    end.
Proof.
  intros Hk Hx. rewrite parse_members_unfold.
  rewrite (scan_string_escape k kbody _ Hk).
  change (skip_ws (String ":" (String " " (xtext ++ rest))))
    with (String ":" (String " " (xtext ++ rest))).
  cbv iota beta. rewrite parse_value_space, Hx. reflexivity.
Qed.

Lemma members_round_trip entries :
  Forall (fun kv => round_trips (snd kv)) entries ->
  forallb (fun kv : string * value =>
             is_ascii (fst kv) && representable (snd kv)) entries = true ->
  exists parts,
    sequence (map (dump_entry dumps) entries) = Some parts
    /\ (entries <> [] ->
        exists r, String.concat ", " parts = String dquote r)
    /\ list_sum (map (fun kv : string * value => S (cost (snd kv))) entries)
       <= String.length (String.concat ", " parts) + 1
    /\ forall fuel acc tail,
         entries <> [] ->
         distinct (map fst acc ++ map fst entries)%list = true ->
         list_sum (map (fun kv : string * value => S (cost (snd kv))) entries)
         <= fuel ->
         parse_members fuel acc (String.concat ", " parts ++ String "}" tail)
         = Some (Dict (acc ++ entries), tail).
Proof.
  induction 1 as [|[k x] es Hx Hes IH]; intros Hrep.
  - exists []. simpl. repeat split; try lia; intros; congruence.
  - simpl in Hrep. apply andb_true_iff in Hrep as [Hkx Hres].
    apply andb_true_iff in Hkx as [Hk Hrx]. simpl in Hx.
    destruct (escape_ascii k Hk) as (kbody & Hkbody).
    destruct (Hx Hrx) as (p & Hp & Hstart & Hcost & Hparse).
    destruct (IH Hres) as (ps & Hps & Hhead' & Hcost' & Hparse').
    remember (String dquote (kbody ++ String dquote EmptyString)
              ++ ": " ++ p)%string as entry eqn:Eentry.
    assert (Hentry : dump_entry dumps (k, x) = Some entry).
    { rewrite Eentry. unfold dump_entry, quoted.
      rewrite Hkbody, Hp. reflexivity. }
    assert (Hlen : cost x + 2 <= String.length entry).
    { rewrite Eentry. simpl. rewrite !length_append. simpl. lia. }
    exists (entry :: ps).
    split.
    { change (sequence (map (dump_entry dumps) ((k, x) :: es)))
        with (match dump_entry dumps (k, x) with
              | Some a => option_map (cons a)
                            (sequence (map (dump_entry dumps) es))
              | None => None
              end).
      rewrite Hentry, Hps. reflexivity. }
    destruct es as [|e' es'].
    + simpl in Hps. injection Hps as <-. simpl String.concat.
      split; [intros _; rewrite Eentry; eexists; reflexivity|].
      split; [simpl; lia|].
      intros fuel acc tail _ Hdist Hfuel. simpl in Hfuel.
      destruct fuel as [|fuel]; [lia|].
      rewrite Eentry, entry_text_shape.
      rewrite (parse_members_entry fuel acc kbody k p x _ Hkbody)
        by (apply Hparse; [lia | reflexivity]).
      simpl in Hdist.
      rewrite (setitem_fresh k x acc (distinct_middle _ _ _ Hdist)).
      reflexivity.
    + destruct (sequence_cons_inv _ _ _ Hps) as (p' & ps' & _ & _ & ->).
      change (String.concat ", " (entry :: p' :: ps'))
        with (entry ++ ", " ++ String.concat ", " (p' :: ps'))%string.
      assert (Hne : e' :: es' <> []) by discriminate.
      split; [intros _; rewrite Eentry; eexists; reflexivity|].
      split.
      { rewrite !length_append.
        set (joined := String.concat ", " (p' :: ps')) in *.
        simpl in Hcost' |- *. lia. }
      intros fuel acc tail _ Hdist Hfuel.
      simpl map in Hfuel. simpl list_sum in Hfuel. simpl snd in Hfuel.
      destruct fuel as [|fuel]; [lia|].
      rewrite append_assoc, Eentry, entry_text_shape.
      rewrite (append_assoc ", ").
      rewrite (parse_members_entry fuel acc kbody k p x _ Hkbody)
        by (apply Hparse; [lia | reflexivity]).
      change (skip_ws (", " ++ String.concat ", " (p' :: ps')
                       ++ String "}" tail))
        with (String "," (String " " (String.concat ", " (p' :: ps')
                                      ++ String "}" tail))).
      cbv iota beta. rewrite parse_members_space.
      simpl map in Hdist.
      rewrite (setitem_fresh k x acc (distinct_middle _ _ _ Hdist)).
      rewrite (Hparse' fuel (acc ++ [(k, x)])%list tail Hne).
      * rewrite <- app_assoc. reflexivity.
      * rewrite map_app, <- app_assoc. exact Hdist.
      * simpl map; simpl list_sum; lia.
Qed.

(** *** The round trip *)

Lemma every_value_round_trips : forall v, round_trips v.
Proof.
  apply value_induction.
  - intros _. exists "null". repeat split; [simpl; lia|].
    intros [|fuel] tail Hfuel _; [simpl in Hfuel; lia | reflexivity].
  - intros [|] _; [exists "true" | exists "false"];
      (repeat split; [simpl; lia|]);
      intros [|fuel] tail Hfuel _; (simpl in Hfuel; lia) || reflexivity.
  - intros s Hs. simpl in Hs.
    destruct (escape_ascii s Hs) as (body & Hbody).
    exists (String dquote (body ++ String dquote EmptyString)).
    split; [simpl; unfold quoted; rewrite Hbody; reflexivity|].
    split; [reflexivity|]. split; [simpl; lia|].
    intros [|fuel] tail Hfuel _; [simpl in Hfuel; lia|].
    simpl append. rewrite append_assoc. simpl append.
    rewrite parse_value_quote, (scan_string_escape s body tail Hbody).
    reflexivity.
  - intros z _. exists (repr_int z).
    destruct (repr_int_head z) as (c & rest & Hz & Hc).
    split; [reflexivity|].
    split; [rewrite Hz; apply number_head_starts_value, Hc|].
    split; [rewrite Hz; simpl; lia|].
    intros [|fuel] tail Hfuel Htail; [simpl in Hfuel; lia|].
    pose proof (scan_number_repr z tail Htail) as Hscan.
    rewrite Hz in *. simpl append in *.
    rewrite (parse_value_number fuel c _ Hc), Hscan. reflexivity.
  - intros items IH Hrep. simpl in Hrep.
    destruct (elements_round_trip items IH Hrep)
      as (parts & Hparts & Hstart & Hcost & Hparse).
    exists ("[" ++ String.concat ", " parts ++ "]")%string.
    split; [simpl; rewrite Hparts; reflexivity|].
    split; [reflexivity|].
    split; [simpl; rewrite length_append; simpl; lia|].
    intros [|fuel] tail Hfuel _; [simpl in Hfuel; lia|].
    simpl in Hfuel. simpl append. rewrite append_assoc. simpl append.
    destruct items as [|x xs].
    + simpl in Hparts. injection Hparts as <-. reflexivity.
    + assert (Hne : x :: xs <> []) by discriminate.
      rewrite parse_value_list.
      * rewrite (Hparse fuel [] tail Hne) by lia. reflexivity.
      * specialize (Hstart Hne).
        destruct (String.concat ", " parts); [discriminate Hstart|].
        exact Hstart.
  - intros entries IH Hrep. simpl in Hrep.
    apply andb_true_iff in Hrep as [Hdist Hrep].
    destruct (members_round_trip entries IH Hrep)
      as (parts & Hparts & Hhead & Hcost & Hparse).
    exists ("{" ++ String.concat ", " parts ++ "}")%string.
    split; [simpl; rewrite Hparts; reflexivity|].
    split; [reflexivity|].
    split; [simpl; rewrite length_append; simpl; lia|].
    intros [|fuel] tail Hfuel _; [simpl in Hfuel; lia|].
    simpl in Hfuel. simpl append. rewrite append_assoc. simpl append.
    destruct entries as [|e es].
    + simpl in Hparts. injection Hparts as <-. reflexivity.
    + assert (Hne : e :: es <> []) by discriminate.
      pose proof (Hparse fuel [] tail Hne Hdist) as Hp.
      destruct (Hhead Hne) as (r & Hr). rewrite Hr in *.
      simpl append in *. rewrite parse_value_dict, Hp by lia. reflexivity.
Qed.

(** Every value of the fragment has a JSON text, and [loads] reads it back
    to the same value. *)
Theorem loads_dumps (v : value) :
  representable v = true ->
  exists text, dumps v = Some text /\ loads text = Some v.
Proof.
  intros Hrep.
  destruct (every_value_round_trips v Hrep)
    as (text & Htext & _ & Hcost & Hparse).
  exists text. split; [exact Htext|].
  pose proof (Hparse (S (String.length text)) EmptyString) as Hp.
  rewrite append_nil_r in Hp. unfold loads.
  rewrite Hp by (reflexivity || lia). reflexivity.
Qed.

End JsonFacts.

Open Scope list_scope.

(** ** The payload as JSON *)

(** The text [json.dumps] writes starts as the literal does. *)
Example workflow_data_json_prefix :
  option_map (fun text => substring 0 9 text) (Json.dumps workflow_data)
  = Some (String "{" (String Json.dquote ("name" ++ String Json.dquote ": ")))%string.
Proof. vm_compute. reflexivity. Qed.

(** C8: the payload lies in the fragment on which the round trip holds:
    it has a JSON text, and parsing that text gives the payload back. *)
Theorem workflow_data_json_round_trip :
  Json.representable workflow_data = true
  /\ exists text,
       Json.dumps workflow_data = Some text
       /\ Json.loads text = Some workflow_data.
Proof.
  assert (Hrep : Json.representable workflow_data = true)
    by (vm_compute; reflexivity).
  split; [exact Hrep | exact (JsonFacts.loads_dumps workflow_data Hrep)].
Qed.

(** ** Two runs side by side *)

(** C10: two runs whose subprocess results carry the same standard output
    get the same classification lines, whatever the standard errors and
    return codes are; the marker in the standard output selects the branch;
    the standard error decides only whether its heading and text are
    relayed, which happens exactly when it is not empty. *)
Theorem verdict_depends_on_stdout_only
    (script : string)
    (env1 env2 : list string -> Z -> exn + CompletedProcess)
    (r1 r2 : CompletedProcess) :
  env1 (cmd script) 30%Z = inr r1 ->
  env2 (cmd script) 30%Z = inr r2 ->
  stdout r1 = stdout r2 ->
  exists verdict,
    printed script env1 =
      preamble ++ [ "📊 MCP Container Output:"; stdout r1 ] ++
      (if String.eqb (stderr r1) EmptyString then []
       else [ "⚠️ Errors:"; stderr r1 ]) ++
      verdict ++ next_steps
    /\ printed script env2 =
      preamble ++ [ "📊 MCP Container Output:"; stdout r2 ] ++
      (if String.eqb (stderr r2) EmptyString then []
       else [ "⚠️ Errors:"; stderr r2 ]) ++
      verdict ++ next_steps
    /\ verdict = (if str_in "✅" (stdout r1)
                  then configured_lines else [adjustment_line])
    /\ (forall w1 w2, g_result w1 = Some r1 -> g_result w2 = Some r2 ->
          written_by classification w1 = verdict
          /\ written_by classification w2 = verdict).
Proof.
  intros Hrun1 Hrun2 Hsame.
  exists (if str_in "✅" (stdout r1) then configured_lines else [adjustment_line]).
  assert (Herr : forall err,
             errors_block err =
             if String.eqb err EmptyString then [] else ["⚠️ Errors:"; err]).
  { intros [|c err]; reflexivity. }
  split; [|split; [|split]].
  - unfold printed, final_world.
    rewrite main_unfolded, (body_returned script env1 _ r1 Hrun1).
    unfold relayed. rewrite Herr. reflexivity.
  - unfold printed, final_world.
    rewrite main_unfolded, (body_returned script env2 _ r2 Hrun2).
    unfold relayed. rewrite Herr, <- Hsame. reflexivity.
  - reflexivity.
  - intros w1 w2 Hw1 Hw2. unfold written_by.
    rewrite (classification_runs r1 w1 Hw1), (classification_runs r2 w2 Hw2).
    rewrite <- Hsame. unfold success_marker.
    split; apply skipn_length_app.
Qed.

(** ** The theorems at sample runs *)

Lemma marker_found_reports_configured_witness :
  env_returns sample_ok (cmd sample_script) 30%Z = inr sample_ok
  /\ str_in "✅" (stdout sample_ok) = true
  /\ exists summary,
       printed sample_script (env_returns sample_ok) =
         preamble ++ relayed sample_ok ++ summary ++ next_steps
       /\ length summary = 3.
Proof.
  split; [reflexivity|]. split; [reflexivity|].
  destruct (marker_found_reports_configured
              sample_script (env_returns sample_ok) sample_ok
              eq_refl eq_refl) as (summary & Hout & _ & Hsum & _).
  exists summary. split; [exact Hout|]. rewrite Hsum. reflexivity.
Defined.

Lemma marker_absent_reports_adjustment_witness :
  env_returns sample_denied (cmd sample_script) 30%Z = inr sample_denied
  /\ str_in "✅" (stdout sample_denied) = false
  /\ In "🔧 MCP configuration may need adjustment"
        (printed sample_script (env_returns sample_denied)).
Proof.
  split; [reflexivity|]. split; [reflexivity|].
  destruct (marker_absent_reports_adjustment
              sample_script (env_returns sample_denied) sample_denied
              eq_refl eq_refl) as (summary & _ & _ & _ & Hin & _).
  exact Hin.
Defined.

Lemma timeout_reports_timed_out_witness :
  env_raises sample_timeout (cmd sample_script) 30%Z = inl sample_timeout
  /\ isinstance sample_timeout TimeoutExpired = true
  /\ printed sample_script (env_raises sample_timeout) =
       preamble ++ [ "⏰ MCP test timed out" ] ++ next_steps.
Proof.
  split; [reflexivity|]. split; [reflexivity|].
  apply (timeout_reports_timed_out
           sample_script (env_raises sample_timeout) sample_timeout
           eq_refl eq_refl).
Defined.

Lemma error_reports_message_witness :
  env_raises sample_missing (cmd sample_script) 30%Z = inl sample_missing
  /\ isinstance sample_missing Exception = true
  /\ isinstance sample_missing TimeoutExpired = false
  /\ printed sample_script (env_raises sample_missing) =
       preamble ++
       [ "💥 Error: [Errno 2] No such file or directory: 'docker'" ] ++
       next_steps.
Proof.
  split; [reflexivity|]. split; [reflexivity|]. split; [reflexivity|].
  apply (error_reports_message
           sample_script (env_raises sample_missing) sample_missing
           eq_refl eq_refl eq_refl).
Defined.

Lemma checklist_printed_last_witness :
  (forall e, env_raises sample_missing (cmd sample_script) 30%Z = inl e ->
             isinstance e Exception = true)
  /\ exists before,
       printed sample_script (env_raises sample_missing) =
       before ++
       [ String nl "📋 Next Steps:";
         "1. MCP container is configured with N8N API access";
         "2. Use MCP tools for workflow management";
         "3. Test workflow deployment via MCP" ].
Proof.
  assert (Hexc : forall e,
             env_raises sample_missing (cmd sample_script) 30%Z = inl e ->
             isinstance e Exception = true).
  { intros e He. injection He as <-. reflexivity. }
  split; [exact Hexc|].
  exact (checklist_printed_last sample_script (env_raises sample_missing) Hexc).
Defined.

Lemma every_outcome_exits_normally_witness :
  (forall e, env_raises sample_timeout (cmd sample_script) 30%Z = inl e ->
             isinstance e Exception = true)
  /\ status sample_script (env_raises sample_timeout) = Exits 0
  /\ final_world sample_script (env_raises sample_timeout) =
     mkWorld (Some workflow_data) (Some (cmd sample_script)) None
             (preamble ++ [ "⏰ MCP test timed out" ] ++ next_steps).
Proof.
  assert (Hexc : forall e,
             env_raises sample_timeout (cmd sample_script) 30%Z = inl e ->
             isinstance e Exception = true).
  { intros e He. injection He as <-. reflexivity. }
  split; [exact Hexc|].
  destruct (every_outcome_exits_normally
              sample_script (env_raises sample_timeout) Hexc)
    as (_ & _ & Hstatus & Hworld & _).
  split; [exact Hstatus | exact Hworld].
Defined.

Lemma verdict_depends_on_stdout_only_witness :
  env_returns sample_quiet (cmd sample_script) 30%Z = inr sample_quiet
  /\ env_returns sample_noisy (cmd sample_script) 30%Z = inr sample_noisy
  /\ stdout sample_quiet = stdout sample_noisy
  /\ exists verdict,
       verdict = [adjustment_line]
       /\ printed sample_script (env_returns sample_quiet) =
            preamble ++ [ "📊 MCP Container Output:"; stdout sample_quiet ] ++
            verdict ++ next_steps
       /\ printed sample_script (env_returns sample_noisy) =
            preamble ++ [ "📊 MCP Container Output:"; stdout sample_noisy ] ++
            [ "⚠️ Errors:"; stderr sample_noisy ] ++ verdict ++ next_steps.
Proof.
  split; [reflexivity|]. split; [reflexivity|]. split; [reflexivity|].
  destruct (verdict_depends_on_stdout_only
              sample_script (env_returns sample_quiet) (env_returns sample_noisy)
              sample_quiet sample_noisy eq_refl eq_refl eq_refl)
    as (verdict & H1 & H2 & Hv & _).
  exists verdict. split; [exact Hv|]. split; [exact H1 | exact H2].
Defined.

(** ** The edges of the statements above *)

(** A condition outside [Exception] is caught by neither clause: the run
    stops after the attempt line and the interpreter ends by SIGINT. *)
Remark interrupt_leaves_the_try :
  printed sample_script (env_raises sample_interrupt) = preamble
  /\ ending sample_script (env_raises sample_interrupt) = inl sample_interrupt
  /\ status sample_script (env_raises sample_interrupt) = KilledBySigint.
Proof. repeat split; reflexivity. Qed.

(** The relayed text is data: the script prints it as it is and classifies
    by the marker in the standard output alone, so a line of the other
    branch can reach the console only inside the captured text. *)
Remark relayed_text_is_not_classified :
  printed sample_script (env_returns sample_echo) =
  preamble ++ relayed sample_echo ++ configured_lines ++ next_steps
  /\ In adjustment_line (relayed sample_echo).
Proof.
  split; [reflexivity|]. simpl. right; right; right; left. reflexivity.
Qed.

(** ** The marker in the standard output of the inline script *)

Module NodeFacts.
Import Node.

(** A character that does not occur in [n] stops every match of [n]. *)
Lemma prefix_before_separator (n : string) (c : ascii) :
  ~ In c (list_ascii_of_string n) ->
  forall a b, String.prefix n (a ++ String c b)%string = String.prefix n a.
Proof.
  induction n as [|d n IH]; intros Hc a b.
  - destruct a; reflexivity.
  - simpl in Hc. destruct a as [|x a]; simpl.
    + destruct (ascii_dec d c) as [-> | _]; [|reflexivity].
      exfalso. apply Hc. left. reflexivity.
    + destruct (ascii_dec d x); [|reflexivity].
      apply IH. intros Hin. apply Hc. right. exact Hin.
Qed.

Lemma str_in_across_separator (n : string) (c : ascii) :
  n <> EmptyString ->
  ~ In c (list_ascii_of_string n) ->
  forall a b,
    str_in n (a ++ String c b)%string = str_in n a || str_in n b.
Proof.
  intros Hn Hc a b. induction a as [|x a IH].
  - change (str_in n (EmptyString ++ String c b)%string)
      with (String.prefix n (EmptyString ++ String c b)%string || str_in n b).
    rewrite (prefix_before_separator n c Hc EmptyString b).
    change (str_in n EmptyString) with (String.prefix n EmptyString || false).
    rewrite orb_false_r. reflexivity.
  - change (str_in n (String x a ++ String c b)%string)
      with (String.prefix n (String x a ++ String c b)%string
            || str_in n (a ++ String c b)%string).
    rewrite (prefix_before_separator n c Hc (String x a) b), IH.
    change (str_in n (String x a))
      with (String.prefix n (String x a) || str_in n a).
    rewrite orb_assoc. reflexivity.
Qed.

Lemma marker_not_in_digits (u : Decimal.uint) (rest : string) :
  str_in "✅" (NilEmpty.string_of_uint u ++ rest)%string = str_in "✅" rest.
Proof. induction u; try exact IHu. reflexivity. Qed.

Lemma marker_not_in_numeral (u : Decimal.uint) (rest : string) :
  str_in "✅" (NilZero.string_of_uint u ++ rest)%string = str_in "✅" rest.
Proof.
  destruct u; try reflexivity;
    match goal with
    | |- context [NilZero.string_of_uint ?d] =>
        exact (marker_not_in_digits d rest)
    end.
Qed.

Lemma marker_not_in_number (z : Z) (rest : string) :
  str_in "✅" (number_text z ++ rest)%string = str_in "✅" rest.
Proof.
  unfold number_text. destruct z as [|p|p]; simpl Z.to_int.
  - reflexivity.
  - exact (marker_not_in_numeral (Pos.to_uint p) rest).
  - exact (marker_not_in_numeral (Pos.to_uint p) rest).
Qed.

Lemma marker_in_response (statusCode : Z) (rest : string) :
  str_in "✅" (on_response statusCode ++ rest)%string
  = (statusCode =? 200)%Z || str_in "✅" rest.
Proof.
  unfold on_response, console_log. simpl String.concat.
  rewrite !JsonFacts.append_assoc.
  match goal with
  | |- str_in _ (_ ++ ?tail)%string = _ =>
      transitivity (str_in "✅" (number_text statusCode ++ tail)%string);
        [reflexivity|]
  end.
  rewrite marker_not_in_number.
  destruct (statusCode =? 200)%Z; reflexivity.
Qed.

Lemma marker_in_error (message rest : string) :
  str_in "✅" (on_error message ++ rest)%string
  = str_in "✅" message || str_in "✅" rest.
Proof.
  unfold on_error, console_log. simpl String.concat.
  rewrite !JsonFacts.append_assoc.
  transitivity (str_in "✅" (message ++ String nl rest)%string);
    [reflexivity|].
  apply str_in_across_separator.
  - discriminate.
  - simpl. intros [H | [H | [H | []]]]; discriminate H.
Qed.

Lemma marker_in_deliver (events : list http_event) :
  forall responded,
    str_in "✅" (deliver responded events)
    = (if responded then false
       else match first_status events with
            | Some statusCode => (statusCode =? 200)%Z
            | None => false
            end)
      || existsb (str_in "✅") (error_messages events).
Proof.
  induction events as [|[statusCode | message] events IH]; intros responded.
  - destruct responded; reflexivity.
  - destruct responded.
    + change (deliver true (Response statusCode :: events))
        with (deliver true events).
      rewrite IH. reflexivity.
    + change (deliver false (Response statusCode :: events))
        with (on_response statusCode ++ deliver true events)%string.
      rewrite marker_in_response, IH. reflexivity.
  - change (deliver responded (RequestError message :: events))
      with (on_error message ++ deliver responded events)%string.
    rewrite marker_in_error, IH.
    change (first_status (RequestError message :: events))
      with (first_status events).
    change (existsb (str_in "✅")
              (error_messages (RequestError message :: events)))
      with (str_in "✅" message
            || existsb (str_in "✅") (error_messages events)).
    destruct responded;
      destruct (str_in "✅" message);
      destruct (existsb (str_in "✅") (error_messages events));
      try reflexivity;
      destruct (first_status events) as [statusCode|];
      try destruct (statusCode =? 200)%Z; reflexivity.
Qed.

End NodeFacts.

(** ** The inline script and the classification, end to end *)

Ltac not_listed :=
  let H := fresh "H" in
  simpl; intros H;
  repeat (destruct H as [H | H]; [discriminate H |]);
  exact H.

Lemma marker_in_stdout
    (https_request : Node.request_options -> list Node.http_event)
    (api_key : string) :
  str_in "✅" (Node.script_stdout https_request api_key)
  = match Node.first_status (https_request (Node.options api_key)) with
    | Some statusCode => (statusCode =? 200)%Z
    | None => false
    end
    || existsb (str_in "✅")
               (Node.error_messages (https_request (Node.options api_key))).
Proof.
  unfold Node.script_stdout, Node.console_log. simpl String.concat.
  transitivity
    (str_in "✅" (Node.deliver false (https_request (Node.options api_key))));
    [reflexivity|].
  apply NodeFacts.marker_in_deliver.
Qed.

Lemma verdict_from_events
    (script : string)
    (env : list string -> Z -> exn + CompletedProcess)
    (https_request : Node.request_options -> list Node.http_event)
    (api_key : string) (r : CompletedProcess) :
  env (cmd script) 30%Z = inr r ->
  stdout r = Node.script_stdout https_request api_key ->
  printed script env =
  preamble ++ relayed r ++
  (if match Node.first_status (https_request (Node.options api_key)) with
      | Some statusCode => (statusCode =? 200)%Z
      | None => false
      end
      || existsb (str_in "✅")
                 (Node.error_messages (https_request (Node.options api_key)))
   then configured_lines else [adjustment_line]) ++
  next_steps.
Proof.
  intros Hrun Hstdout. unfold printed, final_world.
  rewrite main_unfolded, (body_returned script env _ r Hrun).
  unfold success_marker.
  rewrite Hstdout at 1. rewrite marker_in_stdout. reflexivity.
Qed.

(** X1: the marker occurs in what the inline script writes exactly when
    the response callback saw status 200 or some error message carries the
    marker itself. *)
Theorem marker_in_script_stdout
    (https_request : Node.request_options -> list Node.http_event)
    (api_key : string) :
  str_in "✅" (Node.script_stdout https_request api_key)
  = match Node.first_status (https_request (Node.options api_key)) with
    | Some statusCode => (statusCode =? 200)%Z
    | None => false
    end
    || existsb (str_in "✅")
               (Node.error_messages (https_request (Node.options api_key))).
Proof.
  unfold Node.script_stdout, Node.console_log. simpl String.concat.
  transitivity
    (str_in "✅" (Node.deliver false (https_request (Node.options api_key))));
    [reflexivity|].
  rewrite NodeFacts.marker_in_deliver. reflexivity.
Qed.

(** X2: when the captured standard output is what the inline script wrote,
    the outer script reports "configured" if the callback saw status 200 or
    an error message carries the marker, and "needs adjustment" otherwise. *)
Theorem inline_script_decides_verdict
    (script : string)
    (env : list string -> Z -> exn + CompletedProcess)
    (https_request : Node.request_options -> list Node.http_event)
    (api_key : string) (r : CompletedProcess) :
  env (cmd script) 30%Z = inr r ->
  stdout r = Node.script_stdout https_request api_key ->
  printed script env =
  preamble ++ relayed r ++
  (if match Node.first_status (https_request (Node.options api_key)) with
      | Some statusCode => (statusCode =? 200)%Z
      | None => false
      end
      || existsb (str_in "✅")
                 (Node.error_messages (https_request (Node.options api_key)))
   then configured_lines else [adjustment_line]) ++
  next_steps.
Proof.
  intros Hrun Hstdout. unfold printed, final_world.
  rewrite main_unfolded, (body_returned script env _ r Hrun).
  unfold success_marker.
  rewrite Hstdout at 1. rewrite marker_in_stdout. reflexivity.
Qed.

(** X3: when the subprocess call returns and the captured standard output
    is what the inline script wrote, a first response with status 200 is
    reported as "configured", whatever else happens on the request. *)
Theorem http_200_reports_configured
    (script : string)
    (env : list string -> Z -> exn + CompletedProcess)
    (https_request : Node.request_options -> list Node.http_event)
    (api_key : string) (r : CompletedProcess) :
  env (cmd script) 30%Z = inr r ->
  stdout r = Node.script_stdout https_request api_key ->
  Node.first_status (https_request (Node.options api_key)) = Some 200%Z ->
  printed script env =
  preamble ++ relayed r ++ configured_lines ++ next_steps.
Proof.
  intros Hrun Hstdout Hstatus.
  rewrite (verdict_from_events script env https_request api_key r
             Hrun Hstdout), Hstatus.
  reflexivity.
Qed.

(** X4: when the subprocess call returns and the captured standard output
    is what the inline script wrote, a first response with any other
    status, or a request that ends without a response, is reported as
    "needs adjustment", provided no error message carries the marker. *)
Theorem other_outcomes_report_adjustment
    (script : string)
    (env : list string -> Z -> exn + CompletedProcess)
    (https_request : Node.request_options -> list Node.http_event)
    (api_key : string) (r : CompletedProcess) :
  env (cmd script) 30%Z = inr r ->
  stdout r = Node.script_stdout https_request api_key ->
  Node.first_status (https_request (Node.options api_key)) <> Some 200%Z ->
  (forall message,
     In message (Node.error_messages (https_request (Node.options api_key))) ->
     str_in "✅" message = false) ->
  printed script env =
  preamble ++ relayed r ++ [adjustment_line] ++ next_steps.
Proof.
  intros Hrun Hstdout Hstatus Hclean.
  rewrite (verdict_from_events script env https_request api_key r
             Hrun Hstdout).
  assert (Herr : existsb (str_in "✅")
                   (Node.error_messages (https_request (Node.options api_key)))
                 = false).
  { destruct (existsb _ _) eqn:E; [|reflexivity].
    apply existsb_exists in E as (message & Hin & Hm).
    rewrite (Hclean message Hin) in Hm. discriminate Hm. }
  rewrite Herr, orb_false_r.
  destruct (Node.first_status _) as [statusCode|]; [|reflexivity].
  destruct (Z.eqb_spec statusCode 200) as [-> | _]; [|reflexivity].
  exfalso. apply Hstatus. reflexivity.
Qed.

(** X5: when the subprocess call returns and the captured standard output
    is what the inline script wrote, an error message that carries the
    marker makes the outer script report "configured", also when no
    response with status 200 was seen. *)
Theorem error_with_marker_reports_configured
    (script : string)
    (env : list string -> Z -> exn + CompletedProcess)
    (https_request : Node.request_options -> list Node.http_event)
    (api_key : string) (r : CompletedProcess) (message : string) :
  env (cmd script) 30%Z = inr r ->
  stdout r = Node.script_stdout https_request api_key ->
  In message (Node.error_messages (https_request (Node.options api_key))) ->
  str_in "✅" message = true ->
  printed script env =
  preamble ++ relayed r ++ configured_lines ++ next_steps.
Proof.
  intros Hrun Hstdout Hin Hm.
  rewrite (verdict_from_events script env https_request api_key r
             Hrun Hstdout).
  assert (Herr : existsb (str_in "✅")
                   (Node.error_messages (https_request (Node.options api_key)))
                 = true).
  { apply existsb_exists. exists message. split; assumption. }
  rewrite Herr, orb_true_r. reflexivity.
Qed.

(** ** More about the outer script *)

(** X6: every run, also one that an uncaught condition ends, starts with
    the banner and the attempt line. *)
Theorem preamble_always_first
    (script : string)
    (env : list string -> Z -> exn + CompletedProcess) :
  exists rest,
    printed script env =
    [ "🚀 MCP Workflow Deployment via Configured Container";
      "📋 Attempting MCP workflow creation..." ] ++ rest.
Proof.
  unfold printed, final_world. rewrite main_unfolded.
  destruct (env (cmd script) 30%Z) as [e | r] eqn:Hrun.
  - destruct (isinstance e Exception) eqn:He.
    + destruct (isinstance e TimeoutExpired) eqn:Ht.
      * rewrite (body_timed_out script env _ e Hrun Ht). eexists; reflexivity.
      * rewrite (body_failed script env _ e Hrun Ht He). eexists; reflexivity.
    + rewrite (body_propagates script env _ e Hrun He).
      exists []. reflexivity.
  - rewrite (body_returned script env _ r Hrun). eexists; reflexivity.
Qed.

(** X7: the module body runs to its end exactly when the subprocess call
    returns or raises an instance of [Exception]. *)
Theorem completes_iff_exceptions_caught
    (script : string)
    (env : list string -> Z -> exn + CompletedProcess) :
  ending script env = inr tt
  <-> (forall e, env (cmd script) 30%Z = inl e -> isinstance e Exception = true).
Proof.
  unfold ending. rewrite main_unfolded. split.
  - intros Hend e Hrun.
    destruct (isinstance e Exception) eqn:He; [reflexivity|].
    rewrite (body_propagates script env _ e Hrun He) in Hend.
    discriminate Hend.
  - intros Hexc.
    destruct (body_reaches_closing script env (Some workflow_data) Hexc)
      as (c & r & before & Hbody).
    rewrite Hbody. reflexivity.
Qed.

(** X8: a raised condition outside [Exception] is caught by neither clause:
    it leaves the module body, only the banner and the attempt line are
    written and no line of the closing checklist is.  The interpreter then
    ends as the condition dictates: killed by SIGINT for
    [KeyboardInterrupt], and never with status 0 unless the condition is a
    [SystemExit]. *)
Theorem uncaught_stops_the_run
    (script : string)
    (env : list string -> Z -> exn + CompletedProcess) (e : exn) :
  env (cmd script) 30%Z = inl e ->
  isinstance e Exception = false ->
  ending script env = inl e
  /\ printed script env = preamble
  /\ (forall l, In l next_steps -> ~ In l (printed script env))
  /\ (isinstance e KeyboardInterrupt = true ->
      status script env = KilledBySigint)
  /\ (isinstance e SystemExit = false -> status script env <> Exits 0).
Proof.
  intros Hrun He. unfold status, ending, printed, final_world.
  rewrite main_unfolded, (body_propagates script env _ e Hrun He).
  cbn [fst snd sys_stdout exit_status].
  split; [reflexivity|]. split; [reflexivity|]. split; [|split].
  - intros l Hl.
    repeat (destruct Hl as [<- | Hl]; [not_listed |]). destruct Hl.
  - intros Hk.
    assert (Hs : isinstance e SystemExit = false).
    { unfold isinstance in *. destruct (exn_class e);
        try reflexivity; discriminate Hk. }
    rewrite Hs, Hk. reflexivity.
  - intros Hs. rewrite Hs.
    destruct (isinstance e KeyboardInterrupt); discriminate.
Qed.

(** X9: the environment matters only through the one call
    [subprocess.run(cmd, ..., timeout=30)]: two environments that agree on
    it give the same run, whatever they do on other commands or timeouts. *)
Theorem one_subprocess_call
    (script : string)
    (env1 env2 : list string -> Z -> exn + CompletedProcess) :
  env1 (cmd script) 30%Z = env2 (cmd script) 30%Z ->
  main script env1 initial_world = main script env2 initial_world.
Proof.
  intros Hsame. rewrite !main_unfolded.
  destruct (env1 (cmd script) 30%Z) as [e | r] eqn:Hrun1;
    symmetry in Hsame.
  - destruct (isinstance e Exception) eqn:He.
    + destruct (isinstance e TimeoutExpired) eqn:Ht.
      * rewrite (body_timed_out script env1 _ e Hrun1 Ht),
                (body_timed_out script env2 _ e Hsame Ht). reflexivity.
      * rewrite (body_failed script env1 _ e Hrun1 Ht He),
                (body_failed script env2 _ e Hsame Ht He). reflexivity.
    + rewrite (body_propagates script env1 _ e Hrun1 He),
              (body_propagates script env2 _ e Hsame He). reflexivity.
  - rewrite (body_returned script env1 _ r Hrun1),
            (body_returned script env2 _ r Hsame). reflexivity.
Qed.

(** X10: the return code and the recorded arguments of the completed
    process are never looked at: two results with the same standard output
    and standard error give the same output and the same ending. *)
Theorem return_code_ignored
    (script : string)
    (env1 env2 : list string -> Z -> exn + CompletedProcess)
    (r1 r2 : CompletedProcess) :
  env1 (cmd script) 30%Z = inr r1 ->
  env2 (cmd script) 30%Z = inr r2 ->
  stdout r1 = stdout r2 ->
  stderr r1 = stderr r2 ->
  printed script env1 = printed script env2
  /\ ending script env1 = ending script env2.
Proof.
  intros Hrun1 Hrun2 Hout Herr. unfold printed, final_world, ending.
  rewrite !main_unfolded.
  rewrite (body_returned script env1 _ r1 Hrun1),
          (body_returned script env2 _ r2 Hrun2).
  unfold relayed. rewrite Hout, Herr. split; reflexivity.
Qed.

(** X11: a subprocess that writes nothing to its standard output, as when
    [docker exec] itself fails, is reported as "needs adjustment": an empty
    line is relayed, then the standard error if there is any, whatever the
    return code is. *)
Theorem empty_stdout_reports_adjustment
    (script : string)
    (env : list string -> Z -> exn + CompletedProcess)
    (r : CompletedProcess) :
  env (cmd script) 30%Z = inr r ->
  stdout r = EmptyString ->
  printed script env =
  preamble ++ [ "📊 MCP Container Output:"; EmptyString ] ++
  (if String.eqb (stderr r) EmptyString then []
   else [ "⚠️ Errors:"; stderr r ]) ++
  [ "🔧 MCP configuration may need adjustment" ] ++ next_steps.
Proof.
  intros Hrun Hout. unfold printed, final_world.
  rewrite main_unfolded, (body_returned script env _ r Hrun).
  unfold relayed, errors_block. rewrite Hout.
  destruct (stderr r); reflexivity.
Qed.

Lemma str_in_empty (h : string) : str_in EmptyString h = true.
Proof. destruct h; reflexivity. Qed.

(** Every entry written by [print] is part of the text on the console. *)
Lemma str_in_text_of (s : string) (entries : list string) :
  In s entries -> str_in s (text_of entries) = true.
Proof.
  induction entries as [|x entries IH]; intros Hin; [destruct Hin|].
  change (text_of (x :: entries))
    with (x ++ String nl (text_of entries))%string.
  apply str_in_spec. destruct Hin as [-> | Hin].
  - exists EmptyString, (String nl (text_of entries)). reflexivity.
  - apply IH, str_in_spec in Hin. destruct Hin as (a & b & Hab).
    exists (x ++ String nl a)%string, b.
    rewrite Hab, JsonFacts.append_assoc. reflexivity.
Qed.

Lemma captured_text_in_console
    (script : string)
    (env : list string -> Z -> exn + CompletedProcess)
    (r : CompletedProcess) :
  env (cmd script) 30%Z = inr r ->
  str_in (stdout r) (console_text (final_world script env)) = true
  /\ str_in (stderr r) (console_text (final_world script env)) = true.
Proof.
  intros Hrun. unfold console_text, final_world.
  rewrite main_unfolded, (body_returned script env _ r Hrun).
  cbn [sys_stdout snd]. split.
  - apply str_in_text_of.
    apply in_or_app; right. apply in_or_app; left.
    right; left. reflexivity.
  - destruct (stderr r) as [|c err] eqn:Herr; [apply str_in_empty|].
    apply str_in_text_of.
    apply in_or_app; right. apply in_or_app; left.
    unfold relayed, errors_block. rewrite Herr.
    right; right; right; left. reflexivity.
Qed.

(** X12: what the subprocess wrote is shown as it is: the captured
    standard output and the captured standard error are parts of the text
    on the console. *)
Theorem captured_text_relayed_verbatim
    (script : string)
    (env : list string -> Z -> exn + CompletedProcess)
    (r : CompletedProcess) :
  env (cmd script) 30%Z = inr r ->
  str_in (stdout r) (console_text (final_world script env)) = true
  /\ str_in (stderr r) (console_text (final_world script env)) = true.
Proof.
  intros Hrun. unfold console_text, final_world.
  rewrite main_unfolded, (body_returned script env _ r Hrun).
  cbn [sys_stdout snd]. split.
  - apply str_in_text_of.
    apply in_or_app; right. apply in_or_app; left.
    right; left. reflexivity.
  - destruct (stderr r) as [|c err] eqn:Herr; [apply str_in_empty|].
    apply str_in_text_of.
    apply in_or_app; right. apply in_or_app; left.
    unfold relayed, errors_block. rewrite Herr.
    right; right; right; left. reflexivity.
Qed.

(** X13: the module body runs to its end exactly when the output ends
    with the closing checklist, and then the exit status is 0; a run that
    an uncaught condition cuts short never shows the checklist. *)
Theorem checklist_iff_normal_end
    (script : string)
    (env : list string -> Z -> exn + CompletedProcess) :
  (ending script env = inr tt
   <-> exists before, printed script env = before ++ next_steps)
  /\ (ending script env = inr tt -> status script env = Exits 0).
Proof.
  unfold status, ending, printed, final_world. rewrite main_unfolded.
  destruct (env (cmd script) 30%Z) as [e | r] eqn:Hrun.
  - destruct (isinstance e Exception) eqn:He.
    + assert (Hexc : forall e', env (cmd script) 30%Z = inl e' ->
                                isinstance e' Exception = true).
      { intros e' He'. rewrite Hrun in He'. injection He' as <-. exact He. }
      destruct (body_reaches_closing script env (Some workflow_data) Hexc)
        as (c & r & before & Hbody).
      rewrite Hbody. split; [split; [|reflexivity] | reflexivity].
      intros _. exists before. reflexivity.
    + rewrite (body_propagates script env _ e Hrun He).
      split; [split|]; try discriminate.
      intros [before Hbefore]. apply (f_equal (@length string)) in Hbefore.
      rewrite length_app in Hbefore. simpl in Hbefore. lia.
  - rewrite (body_returned script env _ r Hrun).
    split; [split; [|reflexivity] | reflexivity].
    intros _. eexists. rewrite !app_assoc. reflexivity.
Qed.

(** X14: whatever the subprocess call raises, nothing is relayed: the
    heading of the container output and the heading of the errors are not
    printed. *)
Theorem nothing_relayed_on_raise
    (script : string)
    (env : list string -> Z -> exn + CompletedProcess) (e : exn) :
  env (cmd script) 30%Z = inl e ->
  ~ In "📊 MCP Container Output:" (printed script env)
  /\ ~ In "⚠️ Errors:" (printed script env).
Proof.
  intros Hrun. unfold printed, final_world. rewrite main_unfolded.
  destruct (isinstance e Exception) eqn:He.
  - destruct (isinstance e TimeoutExpired) eqn:Ht.
    + rewrite (body_timed_out script env _ e Hrun Ht). split; not_listed.
    + rewrite (body_failed script env _ e Hrun Ht He). split; not_listed.
  - rewrite (body_propagates script env _ e Hrun He). split; not_listed.
Qed.

Lemma str_in_after (n a b : string) :
  str_in n b = true -> str_in n (a ++ b)%string = true.
Proof.
  intros H. apply str_in_spec in H as (x & y & ->). apply str_in_spec.
  exists (a ++ x)%string, y. rewrite JsonFacts.append_assoc. reflexivity.
Qed.

Lemma str_in_trans (a b c : string) :
  str_in a b = true -> str_in b c = true -> str_in a c = true.
Proof.
  intros Hab Hbc.
  apply str_in_spec in Hab as (x & y & ->).
  apply str_in_spec in Hbc as (u & v & ->).
  apply str_in_spec. exists (u ++ x)%string, (y ++ v)%string.
  rewrite !JsonFacts.append_assoc. reflexivity.
Qed.

Lemma status_line_in_deliver (events : list Node.http_event) (statusCode : Z) :
  Node.first_status events = Some statusCode ->
  str_in (Node.console_log
            ["MCP Container N8N API Status:"; Node.number_text statusCode])
         (Node.deliver false events) = true.
Proof.
  induction events as [|[statusCode' | message] events IH]; intros Hfirst.
  - discriminate Hfirst.
  - injection Hfirst as ->.
    change (Node.deliver false (Node.Response statusCode :: events))
      with (Node.on_response statusCode ++ Node.deliver true events)%string.
    unfold Node.on_response. apply str_in_spec.
    exists EmptyString. eexists.
    rewrite JsonFacts.append_assoc. reflexivity.
  - change (Node.deliver false (Node.RequestError message :: events))
      with (Node.on_error message ++ Node.deliver false events)%string.
    apply str_in_after, IH, Hfirst.
Qed.

(** X15: the status code of the response reaches the user: the line that
    the callback logs for it is part of the text on the console of the
    outer script. *)
Theorem status_code_reaches_console
    (script : string)
    (env : list string -> Z -> exn + CompletedProcess)
    (https_request : Node.request_options -> list Node.http_event)
    (api_key : string) (r : CompletedProcess) (statusCode : Z) :
  env (cmd script) 30%Z = inr r ->
  stdout r = Node.script_stdout https_request api_key ->
  Node.first_status (https_request (Node.options api_key)) = Some statusCode ->
  str_in (Node.console_log
            ["MCP Container N8N API Status:"; Node.number_text statusCode])
         (console_text (final_world script env)) = true.
Proof.
  intros Hrun Hstdout Hfirst.
  apply (str_in_trans _ (stdout r)).
  - rewrite Hstdout. unfold Node.script_stdout.
    apply str_in_after, status_line_in_deliver, Hfirst.
  - exact (proj1 (captured_text_in_console script env r Hrun)).
Qed.

(** ** The further theorems at sample runs *)

Lemma inline_script_decides_verdict_witness :
  env_returns (captured (Node.answers 404)) (cmd sample_script) 30%Z
  = inr (captured (Node.answers 404))
  /\ stdout (captured (Node.answers 404))
     = Node.script_stdout (Node.answers 404) sample_key
  /\ printed sample_script (env_returns (captured (Node.answers 404))) =
     preamble ++ relayed (captured (Node.answers 404)) ++
     [adjustment_line] ++ next_steps.
Proof.
  split; [reflexivity|]. split; [reflexivity|].
  exact (inline_script_decides_verdict
           sample_script (env_returns (captured (Node.answers 404)))
           (Node.answers 404) sample_key (captured (Node.answers 404))
           eq_refl eq_refl).
Defined.

Lemma http_200_reports_configured_witness :
  env_returns (captured (Node.answers 200)) (cmd sample_script) 30%Z
  = inr (captured (Node.answers 200))
  /\ Node.first_status (Node.answers 200 (Node.options sample_key))
     = Some 200%Z
  /\ printed sample_script (env_returns (captured (Node.answers 200))) =
     preamble ++ relayed (captured (Node.answers 200)) ++
     configured_lines ++ next_steps.
Proof.
  split; [reflexivity|]. split; [reflexivity|].
  exact (http_200_reports_configured
           sample_script (env_returns (captured (Node.answers 200)))
           (Node.answers 200) sample_key (captured (Node.answers 200))
           eq_refl eq_refl eq_refl).
Defined.

Lemma other_outcomes_report_adjustment_witness :
  Node.first_status (Node.answers 401 (Node.options sample_key))
  <> Some 200%Z
  /\ printed sample_script (env_returns (captured (Node.answers 401))) =
     preamble ++ relayed (captured (Node.answers 401)) ++
     [adjustment_line] ++ next_steps.
Proof.
  assert (Hstatus : Node.first_status (Node.answers 401 (Node.options sample_key))
                    <> Some 200%Z) by discriminate.
  split; [exact Hstatus|].
  apply (other_outcomes_report_adjustment
           sample_script (env_returns (captured (Node.answers 401)))
           (Node.answers 401) sample_key (captured (Node.answers 401))
           eq_refl eq_refl Hstatus).
  intros message [].
Defined.

Lemma error_with_marker_reports_configured_witness :
  Node.first_status
    (Node.fails "proxy said: ✅ but closed the socket" (Node.options sample_key))
  = None
  /\ str_in "✅" "proxy said: ✅ but closed the socket" = true
  /\ printed sample_script (env_returns sample_false_alarm) =
     preamble ++ relayed sample_false_alarm ++ configured_lines ++ next_steps.
Proof.
  split; [reflexivity|]. split; [reflexivity|].
  apply (error_with_marker_reports_configured
           sample_script (env_returns sample_false_alarm)
           (Node.fails "proxy said: ✅ but closed the socket") sample_key
           sample_false_alarm "proxy said: ✅ but closed the socket"
           eq_refl eq_refl).
  - left. reflexivity.
  - reflexivity.
Defined.

Lemma uncaught_stops_the_run_witness :
  env_raises sample_interrupt (cmd sample_script) 30%Z = inl sample_interrupt
  /\ isinstance sample_interrupt Exception = false
  /\ printed sample_script (env_raises sample_interrupt) = preamble
  /\ status sample_script (env_raises sample_interrupt) = KilledBySigint.
Proof.
  split; [reflexivity|]. split; [reflexivity|].
  destruct (uncaught_stops_the_run
              sample_script (env_raises sample_interrupt)
              sample_interrupt eq_refl eq_refl)
    as (_ & Hprinted & _ & Hkilled & _).
  split; [exact Hprinted | exact (Hkilled eq_refl)].
Defined.

Lemma one_subprocess_call_witness :
  env_returns sample_ok (cmd sample_script) 30%Z
  = env_picky (cmd sample_script) 30%Z
  /\ env_returns sample_ok (cmd sample_script) 5%Z
     <> env_picky (cmd sample_script) 5%Z
  /\ main sample_script (env_returns sample_ok) initial_world
     = main sample_script env_picky initial_world.
Proof.
  split; [reflexivity|]. split; [discriminate|].
  exact (one_subprocess_call sample_script (env_returns sample_ok) env_picky
           eq_refl).
Defined.

Lemma return_code_ignored_witness :
  returncode sample_denied <> returncode sample_denied_again
  /\ printed sample_script (env_returns sample_denied)
     = printed sample_script (env_returns sample_denied_again).
Proof.
  split; [discriminate|].
  exact (proj1 (return_code_ignored
                  sample_script (env_returns sample_denied)
                  (env_returns sample_denied_again)
                  sample_denied sample_denied_again
                  eq_refl eq_refl eq_refl eq_refl)).
Defined.

Lemma empty_stdout_reports_adjustment_witness :
  stdout sample_no_container = EmptyString
  /\ printed sample_script (env_returns sample_no_container) =
     preamble ++ [ "📊 MCP Container Output:"; EmptyString ] ++
     [ "⚠️ Errors:"; stderr sample_no_container ] ++
     [ "🔧 MCP configuration may need adjustment" ] ++ next_steps.
Proof.
  split; [reflexivity|].
  exact (empty_stdout_reports_adjustment
           sample_script (env_returns sample_no_container) sample_no_container
           eq_refl eq_refl).
Defined.

Lemma captured_text_relayed_verbatim_witness :
  env_returns sample_denied (cmd sample_script) 30%Z = inr sample_denied
  /\ str_in (stderr sample_denied)
       (console_text (final_world sample_script (env_returns sample_denied)))
     = true.
Proof.
  split; [reflexivity|].
  exact (proj2 (captured_text_relayed_verbatim
                  sample_script (env_returns sample_denied) sample_denied
                  eq_refl)).
Defined.

Lemma nothing_relayed_on_raise_witness :
  env_raises sample_timeout (cmd sample_script) 30%Z = inl sample_timeout
  /\ ~ In "📊 MCP Container Output:"
       (printed sample_script (env_raises sample_timeout)).
Proof.
  split; [reflexivity|].
  exact (proj1 (nothing_relayed_on_raise
                  sample_script (env_raises sample_timeout) sample_timeout
                  eq_refl)).
Defined.

Lemma status_code_reaches_console_witness :
  Node.first_status (Node.answers 401 (Node.options sample_key))
  = Some 401%Z
  /\ str_in "MCP Container N8N API Status: 401
"
       (console_text
          (final_world sample_script
             (env_returns (captured (Node.answers 401))))) = true.
Proof.
  split; [reflexivity|].
  exact (status_code_reaches_console
           sample_script (env_returns (captured (Node.answers 401)))
           (Node.answers 401) sample_key (captured (Node.answers 401)) 401%Z
           eq_refl eq_refl eq_refl).
Defined.
